(** * Wasmify: the WebAssembly runtime wrapper ([lib/wasm-runtime.ts])

    A shallow embedding of the class [WebAssemblyRuntime]: its module cache,
    its registry of active instances, binary validation, module loading,
    function execution and the statistics snapshot, together with the
    properties the specification states about them.

    The two [Map]s of the class are finite maps from strings (no method
    depends on their order of insertion). The [async] methods are tasks cut
    at their [await]s, so that one call can be run alone, to its end, or
    interleaved with others on the shared maps. The clock is part of the
    world: it moves while an awaited operation is outstanding, not inside a
    segment of synchronous code. *)

From Stdlib Require Import ZArith QArith Qround String Ascii DecimalString DecimalPos
  DecimalZ List.
From Stdlib.Strings Require Import Byte.
From stdpp Require Import base option list gmap strings fin_maps.

Local Open Scope string_scope.
Local Open Scope Z_scope.

(** * Host values *)

(** Errors thrown by the host and the engine: the constructor that built
    them and the [message] the [catch] blocks read. What is thrown is taken
    to be an [Error] object, as both [catch] blocks of the source take it to
    be. *)
Inductive ErrorKind := EError | ERangeError | ETypeError.

Record JsError := mkError { err_kind : ErrorKind; message : string }.

(** The values guests take and return ([any] in the source). *)
Inductive JsVal :=
| JNull
| JNum (n : Z)
| JStr (s : string).

(** A synchronous computation that returns or throws. *)
Inductive Completion (A : Type) :=
| Normal (a : A)
| Throw (e : JsError).
Arguments Normal {A} a.
Arguments Throw {A} e.

(** Template literals print numbers in decimal. *)
Definition dec (z : Z) : string := NilZero.string_of_int (Z.to_int z).

(** * Buffers *)

Module Buffer.

Definition byte_at (b : list byte) (i : nat) : option Z :=
  (fun x => Z.of_N (Byte.to_N x)) <$> b !! i.

(** Node's [ERR_BUFFER_OUT_OF_BOUNDS] and [ERR_OUT_OF_RANGE]. *)
Definition quote : string := String (ascii_of_nat 34) EmptyString.

Definition boundsError (value : Z) (len : Z) : JsError :=
  if len <? 0
  then mkError ERangeError "Attempt to access memory outside buffer bounds"
  else mkError ERangeError
         ("The value of " +:+ quote +:+ "offset" +:+ quote
          +:+ " is out of range. It must be >= 0 and <= " +:+ dec len
          +:+ ". Received " +:+ dec value).

(** [buf.readUInt32LE(offset)]: the four bytes from [offset], least
    significant first; a [RangeError] when the first or the last of them
    lies outside the buffer. *)
Definition readUInt32LE (b : list byte) (offset : nat) : Completion Z :=
  match byte_at b offset, byte_at b (offset + 3) with
  | Some first, Some last =>
      Normal (first
              + default 0 (byte_at b (offset + 1)) * 2 ^ 8
              + default 0 (byte_at b (offset + 2)) * 2 ^ 16
              + last * 2 ^ 24)
  | _, _ => Throw (boundsError (Z.of_nat offset) (Z.of_nat (length b) - 4))
  end.

End Buffer.

(** * SHA-256

    [crypto.createHash('sha256')], as FIPS 180-4 defines it, on 32-bit words
    held in [Z]. *)

Module SHA256.

Definition mask (x : Z) : Z := Z.land x 0xffffffff.
Definition add (x y : Z) : Z := mask (x + y).
Definition rotr (n x : Z) : Z := mask (Z.lor (Z.shiftr x n) (Z.shiftl x (32 - n))).
Definition shr (n x : Z) : Z := Z.shiftr x n.

Definition Ch (x y z : Z) : Z := Z.lxor (Z.land x y) (Z.land (mask (Z.lnot x)) z).
Definition Maj (x y z : Z) : Z := Z.lxor (Z.lxor (Z.land x y) (Z.land x z)) (Z.land y z).
Definition Sigma0 (x : Z) : Z := Z.lxor (Z.lxor (rotr 2 x) (rotr 13 x)) (rotr 22 x).
Definition Sigma1 (x : Z) : Z := Z.lxor (Z.lxor (rotr 6 x) (rotr 11 x)) (rotr 25 x).
Definition sigma0 (x : Z) : Z := Z.lxor (Z.lxor (rotr 7 x) (rotr 18 x)) (shr 3 x).
Definition sigma1 (x : Z) : Z := Z.lxor (Z.lxor (rotr 17 x) (rotr 19 x)) (shr 10 x).

(** The constants are the first 32 bits of the fractional parts of the cube
    roots of the first 64 primes, the initial hash value those of the square
    roots of the first 8. *)
Definition is_prime (n : nat) : bool :=
  forallb (fun d => negb (n mod d =? 0)%nat) (seq 2 (n - 2)).

Definition primes : list Z := Z.of_nat <$> filter (fun n => is_prime n = true) (seq 2 310).

Fixpoint cube_root_bits (n : nat) (x r : Z) : Z :=
  match n with
  | O => r
  | S n =>
      let r' := Z.lor r (Z.shiftl 1 (Z.of_nat n)) in
      cube_root_bits n x (if r' * r' * r' <=? x then r' else r)
  end.

Definition K : list Z :=
  Eval vm_compute in (fun p => mask (cube_root_bits 36 (p * 2 ^ 96) 0)) <$> primes.

Definition H0 : list Z :=
  Eval vm_compute in (fun p => mask (Z.sqrt (p * 2 ^ 64))) <$> take 8 primes.

(** The message followed by the bit 1, zeros and its length in bits on 64
    bits, a multiple of 64 bytes in all. *)
Definition be64 (n : Z) : list Z :=
  (fun i => Z.land (Z.shiftr n (8 * (7 - Z.of_nat i))) 0xff) <$> seq 0 8.

Definition pad (msg : list Z) : list Z :=
  let len := Z.of_nat (length msg) in
  let zeros := Z.to_nat ((55 - len) mod 64) in
  msg ++ [0x80] ++ replicate zeros 0 ++ be64 (8 * len).

Fixpoint words (bytes : list Z) : list Z :=
  match bytes with
  | a :: b :: c :: d :: rest =>
      (Z.shiftl a 24 + Z.shiftl b 16 + Z.shiftl c 8 + d) :: words rest
  | _ => []
  end.

(** The message schedule, latest word first. *)
Fixpoint schedule (n : nat) (w : list Z) : list Z :=
  match n with
  | O => w
  | S n =>
      let next := add (add (sigma1 (nth 1 w 0)) (nth 6 w 0))
                      (add (sigma0 (nth 14 w 0)) (nth 15 w 0)) in
      schedule n (next :: w)
  end.

Definition round (st : list Z) (kw : Z * Z) : list Z :=
  match st with
  | [a; b; c; d; e; f; g; h] =>
      let t1 := add (add (add h (Sigma1 e)) (add (Ch e f g) (fst kw))) (snd kw) in
      let t2 := add (Sigma0 a) (Maj a b c) in
      [add t1 t2; a; b; c; add d t1; e; f; g]
  | _ => st
  end.

Definition compress (h : list Z) (block : list Z) : list Z :=
  let w := rev (schedule 48 (rev (words block))) in
  let st := fold_left round (combine K w) h in
  (fun p => add (fst p) (snd p)) <$> combine h st.

Fixpoint blocks (n : nat) (h : list Z) (bytes : list Z) : list Z :=
  match n with
  | O => h
  | S n => blocks n (compress h (take 64 bytes)) (drop 64 bytes)
  end.

Definition digest (msg : list byte) : list Z :=
  let padded := pad ((fun b => Z.of_N (Byte.to_N b)) <$> msg) in
  blocks (length padded / 64) H0 padded.

Definition hexdigit (n : Z) : ascii :=
  ascii_of_N (Z.to_N (if n <? 10 then 48 + n else 87 + n)).

Definition hexword (w : Z) : string :=
  fold_right (fun i s => String (hexdigit (Z.land (Z.shiftr w (4 * (7 - Z.of_nat i))) 0xf)) s)
    EmptyString (seq 0 8).

Definition hex (msg : list byte) : string :=
  fold_right (fun w s => hexword w +:+ s) EmptyString (digest msg).

End SHA256.

(** * Binary validation *)

Definition WASM_MAGIC : Z := 0x6d736100.
Definition WASM_VERSION : Z := 1.

(** [validateWasmBinary]: the magic number, then the version. *)
Definition validateWasmBinary (buffer : list byte) : Completion unit :=
  match Buffer.readUInt32LE buffer 0 with
  | Throw e => Throw e
  | Normal magic =>
      if negb (magic =? WASM_MAGIC)
      then Throw (mkError EError "Invalid WebAssembly binary: wrong magic number")
      else
        match Buffer.readUInt32LE buffer 4 with
        | Throw e => Throw e
        | Normal version =>
            if negb (version =? WASM_VERSION)
            then Throw (mkError EError
                          ("Unsupported WebAssembly version: " +:+ dec version))
            else Normal tt
        end
  end.

#[global] Instance byte_eq_decision : EqDecision byte := Byte.byte_eq_dec.

Definition magic_bytes : list byte := [x00; x61; x73; x6d]%byte.
Definition version_bytes : list byte := [x01; x00; x00; x00]%byte.

(** A rejection carries a reason. *)
Definition rejected (c : Completion unit) : Prop :=
  exists e, c = Throw e /\ message e <> EmptyString.

(** The validator as the specification words it: the four checks (a) to
    (d), in that order, against a configured maximum size. *)
Inductive Reason := TooShort | WrongMagic | WrongVersion | TooLarge.

Definition validate_spec (maxSize : nat) (bytes : list byte) : option Reason :=
  if bool_decide (length bytes < 8)%nat then Some TooShort
  else if bool_decide (take 4 bytes ≠ magic_bytes) then Some WrongMagic
  else if bool_decide (take 4 (drop 4 bytes) ≠ version_bytes) then Some WrongVersion
  else if bool_decide (maxSize < length bytes)%nat then Some TooLarge
  else None.

(** * The embedding runtime and the platform

    The engine ([wasmtime]) and the file system are external to the
    repository: the engine's types and synchronous operations are the fields
    of [Platform], the asynchronous operations are the [EngineCall]s a task
    awaits. *)

Class Platform := {
  WasmModule : Type;
  Instance : Type;
  GuestFunc : Type;
  Imports : Type;
  (** [instance.get(name)]: the export, or [undefined] *)
  instance_get : Instance -> string -> option GuestFunc;
  (** [instance.exports.memory.buffer.byteLength], when there is a memory *)
  instance_memory : Instance -> option Z;
}.

Section Runtime.

Context `{P : Platform}.

(** ** Records of the source *)

Record MemoryLimits := { mem_min : Z; mem_max : Z }.

Record WasmModuleConfig := {
  mc_memory : option MemoryLimits;
  mc_maxExecutionTime : option Z;
  mc_maxInstructions : option Z;
  mc_enableWasi : option bool;
}.

Record WasmExecutionConfig := {
  memory : option MemoryLimits;
  maxExecutionTime : option Z;
  maxInstructions : option Z;
  enableWasi : option bool;
  imports : option Imports;
}.

Record WasmExecutionResult := {
  result : JsVal;
  executionTime : Z;
  memoryUsed : Z;
  instructions : Z;
  success : bool;
  error : option string;
}.

(** The object [loadModule] stores in [moduleCache] (its properties
    [module], [config], [loadedAt] and [size]). *)
Record ModuleRecord := {
  mr_module : WasmModule;
  mr_config : WasmModuleConfig;
  mr_loadedAt : Z;
  mr_size : nat;
}.

(** The object [executeFunction] stores in [activeInstances] (its properties
    [instance], [moduleId], [functionName] and [createdAt]). The map holds
    [any]: [getStats] reads a property [memoryUsed] of the entry, which is
    [None] when the object has no such property. *)
Record InstanceEntry := {
  ie_instance : Instance;
  ie_moduleId : string;
  ie_functionName : string;
  ie_createdAt : Z;
  ie_memoryUsed : option Z;
}.

(** The two private maps of [WebAssemblyRuntime], the host clock
    ([Date.now()], in milliseconds) and the future draws of
    [Math.random()]. *)
Record World := {
  moduleCache : gmap string ModuleRecord;
  activeInstances : gmap string InstanceEntry;
  clock : Z;
  entropy : list Q;
}.

Definition set_moduleCache (f : gmap string ModuleRecord -> gmap string ModuleRecord)
    (w : World) : World :=
  {| moduleCache := f (moduleCache w); activeInstances := activeInstances w;
     clock := clock w; entropy := entropy w |}.

Definition set_activeInstances
    (f : gmap string InstanceEntry -> gmap string InstanceEntry) (w : World) : World :=
  {| moduleCache := moduleCache w; activeInstances := f (activeInstances w);
     clock := clock w; entropy := entropy w |}.

Definition advance (elapsed : Z) (w : World) : World :=
  {| moduleCache := moduleCache w; activeInstances := activeInstances w;
     clock := clock w + elapsed; entropy := entropy w |}.

(** [new WebAssemblyRuntime()] *)
Definition new_runtime (now : Z) (rnd : list Q) : World :=
  {| moduleCache := ∅; activeInstances := ∅; clock := now; entropy := rnd |}.

(** ** Asynchronous tasks

    An [async] method runs until its next [await] of an engine operation and
    is resumed, on the world as it then is, with the value or the exception
    the operation settled to. *)

Inductive EngineCall : Type -> Type :=
| ReadFile (path : string) : EngineCall (list byte)
| Compile (buf : list byte) : EngineCall WasmModule
| Instantiate (m : WasmModule) (wasi : bool) (imp : option Imports) : EngineCall Instance
| Invoke (f : GuestFunc) (args : list JsVal) : EngineCall JsVal.

Inductive Step (A : Type) : Type :=
| Finished (r : Completion A) (w : World)
| Suspended {X : Type} (c : EngineCall X) (k : Completion X -> World -> Step A) (w : World).
Arguments Finished {A} r w.
Arguments Suspended {A X} c k w.

Definition Task (A : Type) : Type := World -> Step A.

Definition ret {A} (a : A) : Task A := fun w => Finished (Normal a) w.
Definition throw {A} (e : JsError) : Task A := fun w => Finished (Throw e) w.

Fixpoint bind_step {A B} (s : Step A) (f : A -> Task B) : Step B :=
  match s with
  | Finished (Normal a) w => f a w
  | Finished (Throw e) w => Finished (Throw e) w
  | Suspended c k w => Suspended c (fun r w' => bind_step (k r w') f) w
  end.

Definition bind {A B} (m : Task A) (f : A -> Task B) : Task B :=
  fun w => bind_step (m w) f.

(** [try { m } catch (error) { h error }] *)
Fixpoint catch_step {A} (s : Step A) (h : JsError -> Task A) : Step A :=
  match s with
  | Finished (Normal a) w => Finished (Normal a) w
  | Finished (Throw e) w => h e w
  | Suspended c k w => Suspended c (fun r w' => catch_step (k r w') h) w
  end.

Definition try_catch {A} (m : Task A) (h : JsError -> Task A) : Task A :=
  fun w => catch_step (m w) h.

Definition await {X} (c : EngineCall X) : Task X :=
  fun w => Suspended c (fun r w' => Finished r w') w.

Definition lift {A} (c : Completion A) : Task A := fun w => Finished c w.
Definition gets {A} (f : World -> A) : Task A := fun w => Finished (Normal (f w)) w.
Definition modify (f : World -> World) : Task unit := fun w => Finished (Normal tt) (f w).

#[global] Instance task_ret : MRet Task := @ret.
#[global] Instance task_bind : MBind Task := fun A B f m => bind m f.

(** ** The methods of [WebAssemblyRuntime] *)

Inductive WasmData :=
| FromBuffer (b : list byte)
| FromPath (path : string).

(** [generateModuleId]: the first 16 hexadecimal digits of the SHA-256 of
    the argument, the bytes of a buffer or the characters of a path. *)
Definition generateModuleId (wasmData : WasmData) : string :=
  let hash :=
    match wasmData with
    | FromPath path => SHA256.hex (list_byte_of_string path)
    | FromBuffer b => SHA256.hex b
    end in
  substring 0 16 hash.

Arguments generateModuleId : simpl never.

Definition now : Task Z := gets clock.

(** [loadModule] *)
Definition loadModule (wasmData : WasmData) (config : WasmModuleConfig) : Task string :=
  try_catch
    (let moduleId := generateModuleId wasmData in
     cached ← gets (fun w => moduleCache w !! moduleId);
     match cached with
     | Some _ => mret moduleId
     | None =>
         wasmBuffer ← match wasmData with
                       | FromPath path => await (ReadFile path)
                       | FromBuffer b => mret b
                       end;
         lift (validateWasmBinary wasmBuffer);;
         wasmModule ← await (Compile wasmBuffer);
         loaded ← now;
         modify (set_moduleCache
                   <[moduleId := {| mr_module := wasmModule; mr_config := config;
                                    mr_loadedAt := loaded;
                                    mr_size := length wasmBuffer |}]>);;
         mret moduleId
     end)
    (fun error =>
       throw (mkError EError
                ("Failed to load WebAssembly module: " +:+ message error))).

(** [createWasi] *)
Record Wasi := { wasi_args : list string; wasi_env : list (string * string);
                 wasi_preopens : list (string * string) }.

Definition createWasi : Wasi :=
  {| wasi_args := []; wasi_env := []; wasi_preopens := [] |}.

(** [createInstance]. The object [createWasi] returns has no [start]
    property, so that [wasi.start(instance)] throws a [TypeError]. *)
Definition createInstance (m : WasmModule) (config : WasmExecutionConfig) : Task Instance :=
  let wasi := if default false (enableWasi config) then Some createWasi else None in
  instance ← await (Instantiate m (bool_decide (is_Some wasi)) (imports config));
  match wasi with
  | Some _ => throw (mkError ETypeError "wasi.start is not a function")
  | None => mret instance
  end.

(** [generateInstanceId] *)
Definition generateInstanceId (moduleId functionName : string) : Task string :=
  t ← now;
  mret (moduleId +:+ "-" +:+ functionName +:+ "-" +:+ dec t).

(** [getMemoryUsage] *)
Definition getMemoryUsage (instance : Instance) : Z :=
  match instance_memory instance with
  | Some byteLength => byteLength
  | None => 0
  end.

(** [Math.random()] *)
Definition Math_random : Task Q :=
  fun w =>
    Finished (Normal (hd 0%Q (entropy w)))
      {| moduleCache := moduleCache w; activeInstances := activeInstances w;
         clock := clock w; entropy := tl (entropy w) |}.

(** [getInstructionCount] *)
Definition getInstructionCount (instance : Instance) : Task Z :=
  r ← Math_random;
  mret (Qfloor (r * 100000) + 1000).

(** [executeFunction] *)
Definition executeFunction (moduleId functionName : string) (args : list JsVal)
    (config : WasmExecutionConfig) : Task WasmExecutionResult :=
  try_catch
    (startTime ← now;
     cachedModule ← gets (fun w => moduleCache w !! moduleId);
     match cachedModule with
     | None => throw (mkError EError ("Module " +:+ moduleId +:+ " not found"))
     | Some cachedModule =>
         instance ← createInstance (mr_module cachedModule) config;
         instanceId ← generateInstanceId moduleId functionName;
         created ← now;
         modify (set_activeInstances
                   <[instanceId := {| ie_instance := instance; ie_moduleId := moduleId;
                                      ie_functionName := functionName;
                                      ie_createdAt := created;
                                      ie_memoryUsed := None |}]>);;
         match instance_get instance functionName with
         | None =>
             throw (mkError EError
                      ("Function " +:+ functionName +:+ " not found in module"))
         | Some func =>
             result ← await (Invoke func args);
             finished ← now;
             let executionTime := finished - startTime in
             modify (set_activeInstances (delete instanceId));;
             let memoryUsed := getMemoryUsage instance in
             instructions ← getInstructionCount instance;
             mret {| result := result; executionTime := executionTime;
                     memoryUsed := memoryUsed; instructions := instructions;
                     success := true; error := None |}
         end
     end)
    (fun error =>
       mret {| result := JNull; executionTime := 0; memoryUsed := 0;
               instructions := 0; success := false;
               error := Some (message error) |}).

(** The statistics [getStats] returns. *)
Record RuntimeStats := {
  loadedModules : nat;
  stat_activeInstances : nat;
  totalMemoryUsage : Z;
  cacheHitRate : Q;
}.

(** [calculateCacheHitRate] *)
Definition calculateCacheHitRate (w : World) : Q := 95 # 100.

(** [getStats] *)
Definition getStats (w : World) : RuntimeStats :=
  let totalMemoryUsage :=
    foldl (fun total instance => total + default 0 (ie_memoryUsed instance)) 0
      (map_to_list (activeInstances w)).*2 in
  {| loadedModules := base.size (moduleCache w);
     stat_activeInstances := base.size (activeInstances w);
     totalMemoryUsage := totalMemoryUsage;
     cacheHitRate := calculateCacheHitRate w |}.

(** [clearCache] *)
Definition clearCache (w : World) : World := set_moduleCache (fun _ => ∅) w.

(** [cleanupInstances]: drops the entries created more than five minutes
    ago. *)
Definition cleanupInstances (w : World) : World :=
  let now := clock w in
  let expireTime := 5 * 60 * 1000 in
  set_activeInstances
    (fun entries =>
       foldl (fun live '(id, instance) =>
                if bool_decide (now - ie_createdAt instance > expireTime)
                then delete id live else live)
         entries (map_to_list entries)) w.

(** ** Running one call to completion

    How the awaited operations settle is not decided by the source: a
    [Reply] gives the time an operation took and its value or exception, or
    says that it never settles. [run] resumes the task at once, so that no
    other task interleaves. *)

Inductive Reply (X : Type) :=
| Settles (elapsed : Z) (r : Completion X)
| Never.
Arguments Settles {X} elapsed r.
Arguments Never {X}.

Definition Oracle : Type := forall X, EngineCall X -> Reply X.

Inductive Outcome (A : Type) :=
| Done (a : A) (w : World)       (* the promise resolves *)
| Thrown (e : JsError) (w : World) (* the promise rejects *)
| Pending (w : World).           (* the promise never settles *)
Arguments Done {A} a w.
Arguments Thrown {A} e w.
Arguments Pending {A} w.

Definition outcome_world {A} (o : Outcome A) : World :=
  match o with Done _ w | Thrown _ w | Pending w => w end.

Fixpoint run {A} (o : Oracle) (s : Step A) : Outcome A :=
  match s with
  | Finished (Normal a) w => Done a w
  | Finished (Throw e) w => Thrown e w
  | Suspended c k w =>
      match o _ c with
      | Settles elapsed r => run o (k r (advance elapsed w))
      | Never => Pending w
      end
  end.

Definition is_compile {X} (c : EngineCall X) : bool :=
  match c with Compile _ => true | _ => false end.

(** The number of [engine.module] calls a run makes. *)
Fixpoint compiles {A} (o : Oracle) (s : Step A) : nat :=
  match s with
  | Finished _ _ => 0
  | Suspended c k w =>
      ((if is_compile c then 1 else 0) +
       match o _ c with
       | Settles elapsed r => compiles o (k r (advance elapsed w))
       | Never => 0
       end)%nat
  end.

(** ** Interleaved calls

    Calls in flight share the two maps. A call runs from its start, or from
    the settling of the operation it awaits, to its next [await] or its end
    without interruption; between two such segments any other call may
    run. *)

Definition step_world {A} (s : Step A) : World :=
  match s with
  | Finished _ w => w
  | Suspended _ _ w => w
  end.

Inductive Flight :=
| InFlight {A : Type} (s : Step A).

Record Pool := { shared : World; flights : list Flight }.

(** Start a call: it runs to its first [await]. *)
Definition spawn {A} (t : Task A) (p : Pool) : Pool :=
  let s := t (shared p) in
  {| shared := step_world s; flights := flights p ++ [InFlight s] |}.

Definition awaits_compile (f : Flight) : bool :=
  match f with
  | InFlight (Suspended c _ _) => is_compile c
  | InFlight (Finished _ _) => false
  end.

(** The [engine.module] calls outstanding at one moment. *)
Definition compiles_in_flight (p : Pool) : nat :=
  length (filter (fun f => awaits_compile f = true) (flights p)).

Inductive Label :=
| LLoadModule | LExecuteFunction | LClearCache | LCleanupInstances | LTick | LSettle.

Inductive pool_step : Label -> Pool -> Pool -> Prop :=
| step_loadModule p wasmData config :
    pool_step LLoadModule p (spawn (loadModule wasmData config) p)
| step_executeFunction p moduleId functionName args config :
    pool_step LExecuteFunction p
      (spawn (executeFunction moduleId functionName args config) p)
| step_clearCache p :
    pool_step LClearCache p
      {| shared := clearCache (shared p); flights := flights p |}
| step_cleanupInstances p :
    pool_step LCleanupInstances p
      {| shared := cleanupInstances (shared p); flights := flights p |}
| step_tick p elapsed :
    pool_step LTick p {| shared := advance elapsed (shared p); flights := flights p |}
| step_settle p i A X (c : EngineCall X) k w0 (r : Completion X) :
    flights p !! i = Some (@InFlight A (Suspended c k w0)) ->
    pool_step LSettle p
      {| shared := step_world (k r (shared p));
         flights := <[i := InFlight (k r (shared p))]> (flights p) |}.

(** The operation the [i]-th call awaits settles as the oracle says, after
    the time it says. *)
Definition settle (i : nat) (o : Oracle) (p : Pool) : Pool :=
  match flights p !! i with
  | Some (InFlight (Suspended c k _)) =>
      match o _ c with
      | Settles elapsed r =>
          let s := k r (advance elapsed (shared p)) in
          {| shared := step_world s; flights := <[i := InFlight s]> (flights p) |}
      | Never => p
      end
  | _ => p
  end.

Definition new_pool (now : Z) (rnd : list Q) : Pool :=
  {| shared := new_runtime now rnd; flights := [] |}.

Inductive reachable : Pool -> Prop :=
| reachable_new now rnd : reachable (new_pool now rnd)
| reachable_step l p p' : reachable p -> pool_step l p p' -> reachable p'.

(** Every uninterrupted segment of a call takes the world it starts from to
    a world related to it by [R]. *)
Fixpoint segments {A} (R : World -> World -> Prop) (w0 : World) (s : Step A) : Prop :=
  match s with
  | Finished _ w => R w0 w
  | Suspended _ k w => R w0 w /\ forall r w', segments R w' (k r w')
  end.

Definition task_ok {A} (R : World -> World -> Prop) (t : Task A) : Prop :=
  forall w, segments R w (t w).

Definition flight_ok (R : World -> World -> Prop) (f : Flight) : Prop :=
  match f with
  | InFlight (Finished _ _) => True
  | InFlight (Suspended _ k _) => forall r w', segments R w' (k r w')
  end.



(** [referenceCount]: the live instances created from a cached module. *)
Definition referenceCount (w : World) (id : string) : nat :=
  base.size (filter (fun kv => ie_moduleId kv.2 = id) (activeInstances w)).

(** [config.enableWasi], as a condition. *)
Definition wasiEnabled (config : WasmExecutionConfig) : bool :=
  default false (enableWasi config).


(** The identifier [generateInstanceId] builds at time [t], and the world
    once [executeFunction] has stored the instance under it. *)
Definition instanceIdAt (moduleId functionName : string) (t : Z) : string :=
  moduleId +:+ "-" +:+ functionName +:+ "-" +:+ dec t.

Definition registered (moduleId functionName : string) (i : Instance) (w : World) : World :=
  set_activeInstances
    <[instanceIdAt moduleId functionName (clock w) :=
        {| ie_instance := i; ie_moduleId := moduleId; ie_functionName := functionName;
           ie_createdAt := clock w; ie_memoryUsed := None |}]> w.

(** The world after a call that returned: its entry deleted, one draw of
    [Math.random] consumed. *)
Definition released (moduleId functionName : string) (t : Z) (w : World) : World :=
  {| moduleCache := moduleCache w;
     activeInstances := delete (instanceIdAt moduleId functionName t) (activeInstances w);
     clock := clock w; entropy := tl (entropy w) |}.

(** One iteration of the loop of [cleanupInstances]. *)
Definition sweep (now : Z) (live : gmap string InstanceEntry)
    (kv : string * InstanceEntry) : gmap string InstanceEntry :=
  let '(id, instance) := kv in
  if bool_decide (now - ie_createdAt instance > 5 * 60 * 1000)
  then delete id live else live.

(** No stored entry carries a [memoryUsed]. *)
Definition unmetered (w : World) : Prop :=
  map_Forall (fun _ e => ie_memoryUsed e = None) (activeInstances w).

Definition keeps_unmetered (w w' : World) : Prop := unmetered w -> unmetered w'.

(** No key leaves the module cache. *)
Definition keeps_modules (w w' : World) : Prop :=
  forall id, is_Some (moduleCache w !! id) -> is_Some (moduleCache w' !! id).

(** The result every failing call returns. *)
Definition failure (msg : string) : WasmExecutionResult :=
  {| result := JNull; executionTime := 0; memoryUsed := 0; instructions := 0;
     success := false; error := Some msg |}.

End Runtime.

Arguments Finished {P A} r w.
Arguments Suspended {P A X} c k w.
Arguments Settles {X} elapsed r.
Arguments Never {X}.
Arguments Done {P A} a w.
Arguments Thrown {P A} e w.
Arguments Pending {P A} w.
Arguments InFlight {P A} s.

(** * Further notions about the runtime *)

Section RuntimeNotions.

Context `{P : Platform}.

(** The cache is as it was; the registry and the random draws are as they
    were. *)
Definition same_cache (w w' : World) : Prop := moduleCache w' = moduleCache w.

Definition same_registry (w w' : World) : Prop :=
  activeInstances w' = activeInstances w /\ entropy w' = entropy w.

Definition awaits_guest (f : Flight) : bool :=
  match f with
  | InFlight (Suspended (Invoke _ _) _ _) => true
  | _ => false
  end.

(** The calls whose guest function is running. *)
Definition guests_in_flight (p : Pool) : nat :=
  length (filter (fun f => awaits_guest f = true) (flights p)).

(** The error [loadModule] rethrows. *)
Definition load_error (e : JsError) : JsError :=
  mkError EError ("Failed to load WebAssembly module: " +:+ message e).

(** The world once [loadModule] has stored its record. *)
Definition stored (id : string) (m : WasmModule) (cfg : WasmModuleConfig) (n : nat)
    (w : World) : World :=
  set_moduleCache
    <[id := {| mr_module := m; mr_config := cfg; mr_loadedAt := clock w; mr_size := n |}]> w.

End RuntimeNotions.

(** * A test double for the engine

    Every module it compiles exports an identity function, a function that
    traps and a function that never returns. *)

Module Demo.

Inductive guest := Identity | Unreachable | Spin.

#[global] Instance platform : Platform := {|
  WasmModule := list byte;
  Instance := list (string * guest);
  GuestFunc := guest;
  Imports := unit;
  instance_get := fun i name => snd <$> find (fun kv => String.eqb (fst kv) name) i;
  instance_memory := fun _ => Some 65536;
|}.

Definition exports : list (string * guest) :=
  [("identity", Identity); ("crash", Unreachable); ("spin", Spin)].

Definition oracle_with (spin : Reply JsVal) : Oracle := fun X c =>
  match c in EngineCall X return Reply X with
  | ReadFile path => Settles 1 (Throw (mkError EError "ENOENT: no such file or directory"))
  | Compile buf => Settles 7 (Normal buf)
  | Instantiate m wasi imp => Settles 2 (Normal exports)
  | Invoke f args =>
      match f with
      | Identity => Settles 3 (Normal (hd JNull args))
      | Unreachable => Settles 4 (Throw (mkError EError "unreachable"))
      | Spin => spin
      end
  end.

(** The engine as it is, and an engine that interrupts the guest that
    never returns after fifty milliseconds. *)
Definition oracle : Oracle := oracle_with Never.

(** The empty module: the eight bytes of the header. *)
Definition empty_module : list byte := [x00; x61; x73; x6d; x01; x00; x00; x00]%byte.

Definition no_limits : WasmModuleConfig :=
  {| mc_memory := None; mc_maxExecutionTime := None; mc_maxInstructions := None;
     mc_enableWasi := None |}.

Definition defaults : WasmExecutionConfig :=
  {| memory := None; maxExecutionTime := None; maxInstructions := None;
     enableWasi := None; imports := None |}.


Definition fresh : World := new_runtime 1000 [(1 # 2)%Q].

(** The runtime once [loadModule(empty_module)] has resolved. *)
Definition loaded : World :=
  outcome_world (run oracle (loadModule (FromBuffer empty_module) no_limits fresh)).

Definition empty_module_id : string := "93a44bbb96c75121".

(** Two calls of [loadModule(empty_module)] started together. *)
Definition two_loads : Pool :=
  spawn (loadModule (FromBuffer empty_module) no_limits)
    (spawn (loadModule (FromBuffer empty_module) no_limits) (new_pool 1000 [])).

(** The module loaded, and a call of its function [spin] in flight. *)
Definition busy : Pool :=
  settle 1 oracle
    (spawn (executeFunction empty_module_id "spin" [] defaults)
       (settle 0 oracle
          (spawn (loadModule (FromBuffer empty_module) no_limits)
             (new_pool 1000 [(1 # 2)%Q])))).

(** The record the cache then holds under that identifier. *)
Definition empty_module_record : ModuleRecord :=
  {| mr_module := empty_module; mr_config := no_limits; mr_loadedAt := 1007;
     mr_size := 8 |}.

End Demo.

(** * The route [POST /api/wasm/execute]

    The handler awaits, besides the two methods of the runtime, the parsing
    of the request and the file system. *)

Class Host `{P : Platform} := {
  Request : Type;
  (** [process.cwd()] and [path.join] *)
  cwd : string;
  path_join : string -> string -> string;
  (** [JSON.parse], read at the types the methods of the runtime declare *)
  parse_args : string -> Completion (list JsVal);
  parse_config : string -> Completion WasmExecutionConfig;
}.

Section Route.

Context `{H : Host}.

Record File := { file_name : string }.

(** The fields the handler reads from the form, at the types it casts them
    to. *)
Record Form := {
  form_wasmFile : option File;
  form_functionName : string;
  form_args : option string;
  form_config : option string;
}.

Inductive HostCall : Type -> Type :=
| Engine {X : Type} (c : EngineCall X) : HostCall X
| ReadForm (request : Request) : HostCall Form
| Mkdir (dir : string) : HostCall unit
| ArrayBuffer (f : File) : HostCall (list byte)
| WriteFile (path : string) (data : list byte) : HostCall unit
| Unlink (path : string) : HostCall unit.

Inductive HStep (A : Type) : Type :=
| HFinished (r : Completion A) (w : World)
| HSuspended {X : Type} (c : HostCall X) (k : Completion X -> World -> HStep A) (w : World).
Arguments HFinished {A} r w.
Arguments HSuspended {A X} c k w.

Definition HTask (A : Type) : Type := World -> HStep A.

Fixpoint hbind_step {A B} (s : HStep A) (f : A -> HTask B) : HStep B :=
  match s with
  | HFinished (Normal a) w => f a w
  | HFinished (Throw e) w => HFinished (Throw e) w
  | HSuspended c k w => HSuspended c (fun r w' => hbind_step (k r w') f) w
  end.

Fixpoint hcatch_step {A} (s : HStep A) (h : JsError -> HTask A) : HStep A :=
  match s with
  | HFinished (Normal a) w => HFinished (Normal a) w
  | HFinished (Throw e) w => h e w
  | HSuspended c k w => HSuspended c (fun r w' => hcatch_step (k r w') h) w
  end.

(** A method of the runtime, awaited by the handler. *)
Fixpoint embed_step {A} (s : Step A) : HStep A :=
  match s with
  | Finished r w => HFinished r w
  | Suspended c k w => HSuspended (Engine c) (fun r w' => embed_step (k r w')) w
  end.

Definition hret {A} (a : A) : HTask A := fun w => HFinished (Normal a) w.
Definition hthrow {A} (e : JsError) : HTask A := fun w => HFinished (Throw e) w.
Definition hbind {A B} (m : HTask A) (f : A -> HTask B) : HTask B :=
  fun w => hbind_step (m w) f.
Definition htry_catch {A} (m : HTask A) (h : JsError -> HTask A) : HTask A :=
  fun w => hcatch_step (m w) h.
Definition hawait {X} (c : HostCall X) : HTask X :=
  fun w => HSuspended c (fun r w' => HFinished r w') w.
Definition hlift {A} (c : Completion A) : HTask A := fun w => HFinished c w.
Definition hgets {A} (f : World -> A) : HTask A := fun w => HFinished (Normal (f w)) w.
Definition embed {A} (t : Task A) : HTask A := fun w => embed_step (t w).

#[global] Instance htask_ret : MRet HTask := @hret.
#[global] Instance htask_bind : MBind HTask := fun A B f m => hbind m f.

(** [try { await m } catch (error) { }] *)
Definition ignoring_errors (m : HTask unit) : HTask unit :=
  htry_catch m (fun _ => mret tt).

(** [text || fallback] *)
Definition text_or (fallback : string) (text : option string) : string :=
  match text with
  | Some (String c s) => String c s
  | _ => fallback
  end.

(** The configuration object, as [loadModule] receives it. *)
Definition module_view (config : WasmExecutionConfig) : WasmModuleConfig :=
  {| mc_memory := memory config; mc_maxExecutionTime := maxExecutionTime config;
     mc_maxInstructions := maxInstructions config; mc_enableWasi := enableWasi config |}.

(** What [NextResponse.json] is given. *)
Inductive Body :=
| ErrorBody (error : string)
| ExecutionBody (moduleId : string) (result : WasmExecutionResult) (stats : RuntimeStats).

Record Response := { status : Z; body : Body }.

(** [POST] *)
Definition POST (request : Request) : HTask Response :=
  htry_catch
    (formData ← hawait (ReadForm request);
     let wasmFile := form_wasmFile formData in
     let functionName := form_functionName formData in
     args ← hlift (parse_args (text_or "[]" (form_args formData)));
     config ← hlift (parse_config (text_or "{}" (form_config formData)));
     match wasmFile with
     | None =>
         mret {| status := 400; body := ErrorBody "WebAssembly file is required" |}
     | Some wasmFile =>
         let uploadsDir := path_join cwd "uploads" in
         ignoring_errors (hawait (Mkdir uploadsDir));;
         t ← hgets clock;
         let fileName := dec t +:+ "-" +:+ file_name wasmFile in
         let filePath := path_join uploadsDir fileName in
         buffer ← hawait (ArrayBuffer wasmFile);
         hawait (WriteFile filePath buffer);;
         htry_catch
           (moduleId ← embed (loadModule (FromBuffer buffer) (module_view config));
            result ← embed (executeFunction moduleId functionName args config);
            ignoring_errors (hawait (Unlink filePath));;
            stats ← hgets getStats;
            mret {| status := 200; body := ExecutionBody moduleId result stats |})
           (fun error =>
              ignoring_errors (hawait (Unlink filePath));;
              hthrow error)
     end)
    (fun error =>
       mret {| status := 500;
               body := ErrorBody (text_or "Failed to execute WebAssembly module"
                                    (Some (message error))) |}).

(** The directory and the path the handler writes the upload to. *)
Definition uploadsDir : string := path_join cwd "uploads".

Definition uploadPath (t : Z) (file : File) : string :=
  path_join uploadsDir (dec t +:+ "-" +:+ file_name file).

(** ** Running the handler alone *)

Definition HostOracle : Type := forall X, HostCall X -> Reply X.

Definition engine_of (ho : HostOracle) : Oracle := fun X c => ho X (Engine c).

Fixpoint hrun {A} (ho : HostOracle) (s : HStep A) : Outcome A :=
  match s with
  | HFinished (Normal a) w => Done a w
  | HFinished (Throw e) w => Thrown e w
  | HSuspended c k w =>
      match ho _ c with
      | Settles elapsed r => hrun ho (k r (advance elapsed w))
      | Never => Pending w
      end
  end.

(** The operations on the file system a run performs, in order. *)
Inductive FsOp :=
| OpMkdir (dir : string)
| OpWriteFile (path : string) (data : list byte)
| OpUnlink (path : string).

Definition fs_op {X} (c : HostCall X) : list FsOp :=
  match c with
  | Mkdir dir => [OpMkdir dir]
  | WriteFile path data => [OpWriteFile path data]
  | Unlink path => [OpUnlink path]
  | _ => []
  end.

Fixpoint fs_ops {A} (ho : HostOracle) (s : HStep A) : list FsOp :=
  match s with
  | HFinished _ _ => []
  | HSuspended c k w =>
      fs_op c ++
      match ho _ c with
      | Settles elapsed r => fs_ops ho (k r (advance elapsed w))
      | Never => []
      end
  end.

End Route.

Arguments HFinished {P H A} r w.
Arguments HSuspended {P H A X} c k w.

(** * A test double for the host of the route *)

Module Sample.

Definition syntax_error : JsError := mkError EError "Unexpected token in JSON".

#[global] Instance host : Host := {|
  Request := unit;
  cwd := "/app";
  path_join := fun a b => a +:+ "/" +:+ b;
  parse_args := fun s =>
    if String.eqb s "[]" then Normal []
    else if String.eqb s "[42]" then Normal [JNum 42]
    else Throw syntax_error;
  parse_config := fun s =>
    if String.eqb s "{}" then Normal Demo.defaults else Throw syntax_error;
|}.

(** [{ enableWasi: true }] *)
Definition with_wasi : WasmExecutionConfig :=
  {| memory := None; maxExecutionTime := None; maxInstructions := None;
     enableWasi := Some true; imports := None |}.

(** An engine that instantiates in less than a millisecond. *)
Definition instant : Oracle := fun X c =>
  match c in EngineCall X return Reply X with
  | Instantiate m wasi imp => Settles 0 (Normal Demo.exports)
  | c => Demo.oracle _ c
  end.

Definition upload : File := {| file_name := "empty.wasm" |}.

Definition form (file : option File) (functionName : string) (args : option string) : Form :=
  {| form_wasmFile := file; form_functionName := functionName; form_args := args;
     form_config := None |}.

(** A host on which the upload directory exists already, the uploaded file
    holds [bytes] and writing it settles to [written]. *)
Definition host_oracle (f : Form) (bytes : list byte) (written : Completion unit) :
    HostOracle := fun X c =>
  match c in HostCall X return Reply X with
  | Engine c => Demo.oracle _ c
  | ReadForm _ => Settles 1 (Normal f)
  | Mkdir _ => Settles 1 (Throw (mkError EError "EEXIST: file already exists"))
  | ArrayBuffer _ => Settles 1 (Normal bytes)
  | WriteFile _ _ => Settles 2 written
  | Unlink _ => Settles 1 (Normal tt)
  end.

End Sample.

(** * Properties *)

Ltac task_simpl :=
  cbv [mbind mret task_bind task_ret bind ret throw gets modify lift now await
       try_catch createInstance generateInstanceId getInstructionCount Math_random];
  cbn [bind_step catch_step run compiles step_world].

(** ** The digest on known answers *)

Example sha256_abc :
  SHA256.hex (list_byte_of_string "abc")
  = "ba7816bf8f01cfea414140de5dae2223b00361a396177a9cb410ff61f20015ad".
Proof. vm_compute. reflexivity. Qed.

Example sha256_empty_module :
  generateModuleId (FromBuffer Demo.empty_module) = Demo.empty_module_id.
Proof. vm_compute. reflexivity. Qed.

(** ** Binary validation *)

Lemma byte_to_N_lt (x : byte) : (Byte.to_N x < 256)%N.
Proof. destruct x; vm_compute; reflexivity. Qed.

Lemma byte_at_range b i v : Buffer.byte_at b i = Some v -> 0 <= v < 256.
Proof.
  unfold Buffer.byte_at. destruct (b !! i) as [x|]; [|discriminate].
  intros [= <-]. pose proof (byte_to_N_lt x). lia.
Qed.

Lemma byte_of_Z (x : byte) (n : N) :
  Z.of_N (Byte.to_N x) = Z.of_N n -> Byte.of_N n = Some x.
Proof. intros H. apply N2Z.inj in H. rewrite <- H. apply Byte.of_to_N. Qed.

Lemma readUInt32LE_0 (b : list byte) :
  Buffer.readUInt32LE b 0 =
    match b with
    | b0 :: b1 :: b2 :: b3 :: _ =>
        Normal (Z.of_N (Byte.to_N b0) + Z.of_N (Byte.to_N b1) * 2 ^ 8
                + Z.of_N (Byte.to_N b2) * 2 ^ 16 + Z.of_N (Byte.to_N b3) * 2 ^ 24)
    | _ => Throw (Buffer.boundsError 0 (Z.of_nat (length b) - 4))
    end.
Proof.
  destruct b as [|b0 [|b1 [|b2 [|b3 ?]]]]; reflexivity.
Qed.

Lemma readUInt32LE_4 (b : list byte) :
  Buffer.readUInt32LE b 4 =
    match drop 4 b with
    | b0 :: b1 :: b2 :: b3 :: _ =>
        Normal (Z.of_N (Byte.to_N b0) + Z.of_N (Byte.to_N b1) * 2 ^ 8
                + Z.of_N (Byte.to_N b2) * 2 ^ 16 + Z.of_N (Byte.to_N b3) * 2 ^ 24)
    | _ => Throw (Buffer.boundsError 4 (Z.of_nat (length b) - 4))
    end.
Proof.
  destruct b as [|a0 [|a1 [|a2 [|a3 [|b0 [|b1 [|b2 [|b3 ?]]]]]]]]; reflexivity.
Qed.

Lemma le32_inj (a0 a1 a2 a3 : byte) (n0 n1 n2 n3 : N) :
  (n0 < 256)%N -> (n1 < 256)%N -> (n2 < 256)%N -> (n3 < 256)%N ->
  Z.of_N (Byte.to_N a0) + Z.of_N (Byte.to_N a1) * 2 ^ 8
    + Z.of_N (Byte.to_N a2) * 2 ^ 16 + Z.of_N (Byte.to_N a3) * 2 ^ 24
  = Z.of_N n0 + Z.of_N n1 * 2 ^ 8 + Z.of_N n2 * 2 ^ 16 + Z.of_N n3 * 2 ^ 24 ->
  Byte.of_N n0 = Some a0 /\ Byte.of_N n1 = Some a1 /\
  Byte.of_N n2 = Some a2 /\ Byte.of_N n3 = Some a3.
Proof.
  intros H0 H1 H2 H3 H.
  pose proof (byte_to_N_lt a0). pose proof (byte_to_N_lt a1).
  pose proof (byte_to_N_lt a2). pose proof (byte_to_N_lt a3).
  repeat split; apply byte_of_Z; lia.
Qed.

Lemma validate_cases (b : list byte) :
  validateWasmBinary b =
    if bool_decide (length b < 4)%nat
    then Throw (mkError ERangeError "Attempt to access memory outside buffer bounds")
    else if bool_decide (take 4 b ≠ magic_bytes)
    then Throw (mkError EError "Invalid WebAssembly binary: wrong magic number")
    else if bool_decide (length b < 8)%nat
    then Throw (Buffer.boundsError 4 (Z.of_nat (length b) - 4))
    else if bool_decide (take 4 (drop 4 b) ≠ version_bytes)
    then match Buffer.readUInt32LE b 4 with
         | Normal version =>
             Throw (mkError EError ("Unsupported WebAssembly version: " +:+ dec version))
         | Throw e => Throw e
         end
    else Normal tt.
Proof.
  unfold validateWasmBinary.
  rewrite readUInt32LE_0.
  destruct b as [|a0 [|a1 [|a2 [|a3 b]]]]; try reflexivity.
  rewrite bool_decide_eq_false_2 by (simpl; lia).
  cbn [take].
  destruct (Z.eqb_spec (Z.of_N (Byte.to_N a0) + Z.of_N (Byte.to_N a1) * 2 ^ 8
                + Z.of_N (Byte.to_N a2) * 2 ^ 16 + Z.of_N (Byte.to_N a3) * 2 ^ 24) WASM_MAGIC) as [Hm|Hm]; cbn [negb].
  - apply (le32_inj a0 a1 a2 a3 0 0x61 0x73 0x6d) in Hm; try reflexivity.
    destruct Hm as (H0 & H1 & H2 & H3).
    vm_compute in H0, H1, H2, H3.
    injection H0 as <-; injection H1 as <-; injection H2 as <-; injection H3 as <-.
    rewrite bool_decide_eq_false_2 by (intros H; apply H; reflexivity).
    rewrite readUInt32LE_4. cbn [drop].
    destruct b as [|b0 [|b1 [|b2 [|b3 b]]]]; try reflexivity.
    rewrite bool_decide_eq_false_2 by (simpl; lia).
    cbn [take drop].
    destruct (Z.eqb_spec (Z.of_N (Byte.to_N b0) + Z.of_N (Byte.to_N b1) * 2 ^ 8
                + Z.of_N (Byte.to_N b2) * 2 ^ 16 + Z.of_N (Byte.to_N b3) * 2 ^ 24) WASM_VERSION) as [Hv|Hv]; cbn [negb].
    + apply (le32_inj b0 b1 b2 b3 1 0 0 0) in Hv; try reflexivity.
      destruct Hv as (H0 & H1 & H2 & H3).
      vm_compute in H0, H1, H2, H3.
      injection H0 as <-; injection H1 as <-; injection H2 as <-; injection H3 as <-.
      rewrite bool_decide_eq_false_2 by (intros H; apply H; reflexivity).
      reflexivity.
    + rewrite bool_decide_eq_true_2; [reflexivity|].
      intros [= -> -> -> ->]. apply Hv. reflexivity.
  - rewrite bool_decide_eq_true_2; [reflexivity|].
    intros [= -> -> -> ->]. apply Hm. reflexivity.
Qed.

Lemma boundsError_message v l : message (Buffer.boundsError v l) <> EmptyString.
Proof. unfold Buffer.boundsError. destruct (l <? 0); discriminate. Qed.

(** C3 (amended): [validateWasmBinary] checks, in order, that the buffer
    holds four bytes, that they are the magic number, that it holds eight
    bytes, and that the next four are version 1; there is no check of a
    maximum size. It stops at the first violation with a reason of its own,
    so every buffer shorter than eight bytes or with another magic number or
    version is rejected with a reason, and every buffer that starts with the
    magic number and version 1 is accepted, whatever its size. *)
Theorem validateWasmBinary_checks (b : list byte) :
  validateWasmBinary b =
    (if bool_decide (length b < 4)%nat
     then Throw (mkError ERangeError "Attempt to access memory outside buffer bounds")
     else if bool_decide (take 4 b ≠ magic_bytes)
     then Throw (mkError EError "Invalid WebAssembly binary: wrong magic number")
     else if bool_decide (length b < 8)%nat
     then Throw (Buffer.boundsError 4 (Z.of_nat (length b) - 4))
     else if bool_decide (take 4 (drop 4 b) ≠ version_bytes)
     then match Buffer.readUInt32LE b 4 with
          | Normal version =>
              Throw (mkError EError ("Unsupported WebAssembly version: " +:+ dec version))
          | Throw e => Throw e
          end
     else Normal tt)
  /\ ((length b < 8)%nat \/ take 4 b ≠ magic_bytes \/ take 4 (drop 4 b) ≠ version_bytes ->
      rejected (validateWasmBinary b))
  /\ ((8 <= length b)%nat -> take 4 b = magic_bytes -> take 4 (drop 4 b) = version_bytes ->
      validateWasmBinary b = Normal tt).
Proof.
  split; [apply validate_cases|].
  rewrite validate_cases. split.
  - intros H. unfold rejected.
    repeat case_bool_decide;
      try (eexists; split; [reflexivity|]; first [discriminate | apply boundsError_message]).
    + destruct (Buffer.readUInt32LE b 4) as [v|e] eqn:Hr.
      * eexists; split; [reflexivity|]. discriminate.
      * rewrite readUInt32LE_4 in Hr.
        destruct (drop 4 b) as [|b0 [|b1 [|b2 [|b3 ?]]]]; try discriminate;
          injection Hr as <-; eexists; (split; [reflexivity|apply boundsError_message]).
    + exfalso. destruct H as [H | [H | H]]; [lia | | ]; tauto.
  - intros Hl Hm Hv.
    rewrite bool_decide_eq_false_2 by lia.
    rewrite bool_decide_eq_false_2 by tauto.
    rewrite bool_decide_eq_false_2 by lia.
    rewrite bool_decide_eq_false_2 by tauto.
    reflexivity.
Qed.

Lemma validateWasmBinary_checks_witness :
  validateWasmBinary (Demo.empty_module ++ replicate 100 x00%byte)%list = Normal tt /\
  rejected (validateWasmBinary [x00; x61; x73; x6d; x01]%byte).
Proof.
  split.
  - apply (proj2 (proj2 (validateWasmBinary_checks (Demo.empty_module ++ replicate 100 x00%byte)%list)));
      [simpl; lia | reflexivity | reflexivity].
  - apply (proj1 (proj2 (validateWasmBinary_checks [x00; x61; x73; x6d; x01]%byte))).
    left. simpl. lia.
Defined.

(** C3 fails as stated: a nine-byte module is accepted although a maximum
    size of eight bytes would reject it, and a five-byte buffer without the
    magic number is refused for its magic number, not for its length. *)
Lemma validateWasmBinary_not_as_specified :
  (validate_spec 8 (Demo.empty_module ++ [x00]%byte)%list = Some TooLarge /\
   validateWasmBinary (Demo.empty_module ++ [x00]%byte)%list = Normal tt) /\
  (validate_spec 8 [x00; x00; x00; x00; x01]%byte = Some TooShort /\
   validateWasmBinary [x00; x00; x00; x00; x01]%byte =
     Throw (mkError EError "Invalid WebAssembly binary: wrong magic number")).
Proof. repeat split. Qed.

(** ** The paths of [executeFunction] *)

Section Execute.
Context `{P : Platform}.
Implicit Types (o : Oracle) (w : World) (cfg : WasmExecutionConfig).

Lemma wasi_flag cfg :
  bool_decide (is_Some (if default false (enableWasi cfg) then Some createWasi else None))
  = wasiEnabled cfg.
Proof.
  unfold wasiEnabled. destruct (default false (enableWasi cfg)).
  - apply bool_decide_eq_true_2. eauto.
  - apply bool_decide_eq_false_2. intros [? [=]].
Qed.

Lemma exec_unknown_module o w mid fn args cfg :
  moduleCache w !! mid = None ->
  run o (executeFunction mid fn args cfg w)
  = Done (failure ("Module " +:+ mid +:+ " not found")) w.
Proof. intros H. unfold executeFunction. task_simpl. rewrite H. reflexivity. Qed.

Lemma exec_instantiate_hangs o w mid fn args cfg m :
  moduleCache w !! mid = Some m ->
  o _ (Instantiate (mr_module m) (wasiEnabled cfg) (imports cfg)) = Never ->
  run o (executeFunction mid fn args cfg w) = Pending w.
Proof.
  intros H Ho. unfold executeFunction. task_simpl. rewrite H. task_simpl.
  rewrite wasi_flag, Ho. reflexivity.
Qed.

Lemma exec_instantiate_throws o w mid fn args cfg m dt e :
  moduleCache w !! mid = Some m ->
  o _ (Instantiate (mr_module m) (wasiEnabled cfg) (imports cfg)) = Settles dt (Throw e) ->
  run o (executeFunction mid fn args cfg w)
  = Done (failure (message e)) (advance dt w).
Proof.
  intros H Ho. unfold executeFunction. task_simpl. rewrite H. task_simpl.
  rewrite wasi_flag, Ho. reflexivity.
Qed.

Lemma exec_wasi_start o w mid fn args cfg m dt i :
  moduleCache w !! mid = Some m ->
  o _ (Instantiate (mr_module m) (wasiEnabled cfg) (imports cfg)) = Settles dt (Normal i) ->
  wasiEnabled cfg = true ->
  run o (executeFunction mid fn args cfg w)
  = Done (failure "wasi.start is not a function") (advance dt w).
Proof.
  intros H Ho Hw. unfold executeFunction. task_simpl. rewrite H. task_simpl.
  rewrite wasi_flag, Ho. unfold wasiEnabled in Hw. rewrite Hw. reflexivity.
Qed.

Lemma exec_missing_export o w mid fn args cfg m dt i :
  moduleCache w !! mid = Some m ->
  o _ (Instantiate (mr_module m) (wasiEnabled cfg) (imports cfg)) = Settles dt (Normal i) ->
  wasiEnabled cfg = false ->
  instance_get i fn = None ->
  run o (executeFunction mid fn args cfg w)
  = Done (failure ("Function " +:+ fn +:+ " not found in module"))
         (registered mid fn i (advance dt w)).
Proof.
  intros H Ho Hw Hg. unfold executeFunction. task_simpl. rewrite H. task_simpl.
  rewrite wasi_flag, Ho. unfold wasiEnabled in Hw. rewrite Hw. task_simpl.
  rewrite Hg. reflexivity.
Qed.



Lemma exec_guest_returns o w mid fn args cfg m dt i f dt' v :
  moduleCache w !! mid = Some m ->
  o _ (Instantiate (mr_module m) (wasiEnabled cfg) (imports cfg)) = Settles dt (Normal i) ->
  wasiEnabled cfg = false ->
  instance_get i fn = Some f ->
  o _ (Invoke f args) = Settles dt' (Normal v) ->
  run o (executeFunction mid fn args cfg w)
  = Done {| result := v; executionTime := dt + dt';
            memoryUsed := getMemoryUsage i;
            instructions := Qfloor (hd 0%Q (entropy w) * 100000) + 1000;
            success := true; error := None |}
         (released mid fn (clock w + dt)
            (advance dt' (registered mid fn i (advance dt w)))).
Proof.
  intros H Ho Hw Hg Hf. unfold executeFunction. task_simpl. rewrite H. task_simpl.
  rewrite wasi_flag, Ho. unfold wasiEnabled in Hw. rewrite Hw. task_simpl.
  rewrite Hg. task_simpl. rewrite Hf. task_simpl. cbn.
  f_equal. f_equal. lia.
Qed.

Lemma registered_lookup mid fn (i : Instance) w :
  activeInstances (registered mid fn i w) !! instanceIdAt mid fn (clock w)
  = Some {| ie_instance := i; ie_moduleId := mid; ie_functionName := fn;
            ie_createdAt := clock w; ie_memoryUsed := None |}.
Proof. apply lookup_insert_eq. Qed.

Lemma released_lookup mid fn t w :
  activeInstances (released mid fn t w) !! instanceIdAt mid fn t = None.
Proof. apply lookup_delete_eq. Qed.






End Execute.

Section ExecuteClaims.
Context `{P : Platform}.
Implicit Types (o : Oracle) (w : World) (cfg : WasmExecutionConfig).




End ExecuteClaims.







(** C1: the instance of a call that fails after it was registered is still
    in the registry when the call returns. From a runtime without active
    instances, a call of a function the module does not export and a call
    whose guest traps each return the failure record and leave one instance
    behind; the call that succeeds leaves none. *)
Theorem executeFunction_leaks_on_failure :
  activeInstances Demo.loaded = ∅
  /\ (exists w',
        run Demo.oracle
          (executeFunction Demo.empty_module_id "missing" [] Demo.defaults Demo.loaded)
        = Done (failure "Function missing not found in module") w'
        /\ is_Some (activeInstances w' !! "93a44bbb96c75121-missing-1009")
        /\ base.size (activeInstances w') = 1%nat)
  /\ (exists w',
        run Demo.oracle
          (executeFunction Demo.empty_module_id "crash" [] Demo.defaults Demo.loaded)
        = Done (failure "unreachable") w'
        /\ is_Some (activeInstances w' !! "93a44bbb96c75121-crash-1009")
        /\ base.size (activeInstances w') = 1%nat)
  /\ (exists r w',
        run Demo.oracle
          (executeFunction Demo.empty_module_id "identity" [JNum 42] Demo.defaults
             Demo.loaded)
        = Done r w'
        /\ result r = JNum 42 /\ success r = true
        /\ activeInstances w' = ∅).
Proof.
  split; [vm_compute; reflexivity|].
  split; [|split].
  - eexists. split; [vm_compute; reflexivity|]. split; [vm_compute; eauto | vm_compute; reflexivity].
  - eexists. split; [vm_compute; reflexivity|]. split; [vm_compute; eauto | vm_compute; reflexivity].
  - eexists _, _. split; [vm_compute; reflexivity|]. repeat split; vm_compute; reflexivity.
Qed.

(** ** Interleavings *)

Section Segments.
Context `{P : Platform}.
Context (R : World -> World -> Prop) `{!PreOrder R}.

Lemma segments_weaken {A} w0 w1 (s : Step A) :
  R w0 w1 -> segments R w1 s -> segments R w0 s.
Proof.
  intros H01. destruct s as [r w|X c k w]; cbn.
  - intros. by etrans.
  - intros [H1 Hk]. split; [by etrans | done].
Qed.

Lemma segments_bind {A B} w0 (s : Step A) (f : A -> Task B) :
  segments R w0 s -> (forall a, task_ok R (f a)) -> segments R w0 (bind_step s f).
Proof.
  intros Hs Hf. revert w0 Hs.
  induction s as [[a|e] w|X c k IH w]; cbn; intros w0 Hs.
  - apply segments_weaken with w; [done | apply Hf].
  - done.
  - destruct Hs as [H0 Hk]. split; [done|]. intros r w'. apply IH, Hk.
Qed.

Lemma segments_catch {A} w0 (s : Step A) (h : JsError -> Task A) :
  segments R w0 s -> (forall e, task_ok R (h e)) -> segments R w0 (catch_step s h).
Proof.
  intros Hs Hh. revert w0 Hs.
  induction s as [[a|e] w|X c k IH w]; cbn; intros w0 Hs.
  - done.
  - apply segments_weaken with w; [done | apply Hh].
  - destruct Hs as [H0 Hk]. split; [done|]. intros r w'. apply IH, Hk.
Qed.

Lemma task_ok_ret {A} (a : A) : task_ok R (mret a).
Proof. intros w. cbn. reflexivity. Qed.

Lemma task_ok_throw {A} e : task_ok R (@throw _ A e).
Proof. intros w. cbn. reflexivity. Qed.

Lemma task_ok_gets {A} (f : World -> A) : task_ok R (gets f).
Proof. intros w. cbn. reflexivity. Qed.

Lemma task_ok_lift {A} (c : Completion A) : task_ok R (lift c).
Proof. intros w. cbn. reflexivity. Qed.

Lemma task_ok_await {X} (c : EngineCall X) : task_ok R (await c).
Proof. intros w. cbn. split; [reflexivity|]. intros r w'. cbn. reflexivity. Qed.

Lemma task_ok_modify (f : World -> World) :
  (forall w, R w (f w)) -> task_ok R (modify f).
Proof. intros Hf w. cbn. apply Hf. Qed.

Lemma task_ok_bind {A B} (m : Task A) (f : A -> Task B) :
  task_ok R m -> (forall a, task_ok R (f a)) -> task_ok R (m ≫= f).
Proof. intros Hm Hf w. apply segments_bind; [apply Hm | done]. Qed.

Lemma task_ok_try_catch {A} (m : Task A) (h : JsError -> Task A) :
  task_ok R m -> (forall e, task_ok R (h e)) -> task_ok R (try_catch m h).
Proof. intros Hm Hh w. apply segments_catch; [apply Hm | done]. Qed.

(** What the methods do to the world, step by step. *)
Hypothesis R_insert_module : forall w id rec, R w (set_moduleCache <[id := rec]> w).
Hypothesis R_insert_instance : forall w id i mid fn t,
  R w (set_activeInstances
         <[id := {| ie_instance := i; ie_moduleId := mid; ie_functionName := fn;
                    ie_createdAt := t; ie_memoryUsed := None |}]> w).
Hypothesis R_delete_instance : forall w id, R w (set_activeInstances (delete id) w).
Hypothesis R_random : forall w,
  R w {| moduleCache := moduleCache w; activeInstances := activeInstances w;
         clock := clock w; entropy := tl (entropy w) |}.

Lemma loadModule_ok wasmData config : task_ok R (loadModule wasmData config).
Proof.
  unfold loadModule.
  apply task_ok_try_catch; [|intros; apply task_ok_throw].
  apply task_ok_bind; [apply task_ok_gets|]. intros [rec|]; [apply task_ok_ret|].
  apply task_ok_bind.
  { destruct wasmData; [apply task_ok_ret | apply task_ok_await]. }
  intros buf. apply task_ok_bind; [apply task_ok_lift|]. intros _.
  apply task_ok_bind; [apply task_ok_await|]. intros m.
  apply task_ok_bind; [apply task_ok_gets|]. intros t.
  apply task_ok_bind; [|intros; apply task_ok_ret].
  apply task_ok_modify. intros w. apply R_insert_module.
Qed.

Lemma executeFunction_ok mid fn args cfg : task_ok R (executeFunction mid fn args cfg).
Proof.
  unfold executeFunction.
  apply task_ok_try_catch; [|intros; apply task_ok_ret].
  apply task_ok_bind; [apply task_ok_gets|]. intros t0.
  apply task_ok_bind; [apply task_ok_gets|]. intros [rec|]; [|apply task_ok_throw].
  apply task_ok_bind.
  { unfold createInstance. apply task_ok_bind; [apply task_ok_await|]. intros i.
    destruct (if default false (enableWasi cfg) then _ else _);
      [apply task_ok_throw | apply task_ok_ret]. }
  intros i. apply task_ok_bind.
  { unfold generateInstanceId. apply task_ok_bind; [apply task_ok_gets|].
    intros; apply task_ok_ret. }
  intros id. apply task_ok_bind; [apply task_ok_gets|]. intros t.
  apply task_ok_bind; [apply task_ok_modify; intros; apply R_insert_instance|]. intros _.
  destruct (instance_get i fn) as [f|]; [|apply task_ok_throw].
  apply task_ok_bind; [apply task_ok_await|]. intros v.
  apply task_ok_bind; [apply task_ok_gets|]. intros t1.
  apply task_ok_bind; [apply task_ok_modify; intros; apply R_delete_instance|]. intros _.
  apply task_ok_bind; [|intros; apply task_ok_ret].
  unfold getInstructionCount. apply task_ok_bind; [|intros; apply task_ok_ret].
  intros w. cbn. apply R_random.
Qed.

Hypothesis R_advance : forall w elapsed, R w (advance elapsed w).
Hypothesis R_cleanup : forall w, R w (cleanupInstances w).

Lemma segments_flight_ok {A} w (s : Step A) : segments R w s -> flight_ok R (InFlight s).
Proof. destruct s; cbn; [done | by intros [_ ?]]. Qed.

Lemma segments_world {A} w (s : Step A) : segments R w s -> R w (step_world s).
Proof. destruct s; cbn; [done | by intros [? _]]. Qed.

Lemma spawn_ok {A} (t : Task A) p :
  task_ok R t -> Forall (flight_ok R) (flights p) ->
  R (shared p) (shared (spawn t p)) /\ Forall (flight_ok R) (flights (spawn t p)).
Proof.
  intros Ht Hp. unfold spawn; cbn. split.
  - apply segments_world, Ht.
  - apply Forall_app. split; [done|]. apply Forall_singleton.
    eapply segments_flight_ok, Ht.
Qed.

(** A step other than [clearCache] relates the shared world before to the
    shared world after, and leaves every call in flight such that its
    remaining segments do. *)
Lemma pool_step_ok l p p' :
  (l = LClearCache -> forall w, R w (clearCache w)) ->
  Forall (flight_ok R) (flights p) ->
  pool_step l p p' ->
  R (shared p) (shared p') /\ Forall (flight_ok R) (flights p').
Proof.
  intros Hclear Hp Hstep.
  destruct Hstep as [p d c|p mid fn args c|p|p|p dt|p i A X c k w0 r Hi];
    cbn [shared flights].
  - apply spawn_ok; [apply loadModule_ok | done].
  - apply spawn_ok; [apply executeFunction_ok | done].
  - split; [by apply Hclear | done].
  - split; [apply R_cleanup | done].
  - split; [apply R_advance | done].
  - pose proof (Forall_lookup_1 _ _ _ _ Hp Hi) as Hk. cbn in Hk.
    split.
    + apply segments_world, Hk.
    + apply Forall_insert; [done|]. eapply segments_flight_ok, Hk.
Qed.

Lemma pool_step_flights l p p' :
  Forall (flight_ok R) (flights p) -> pool_step l p p' -> Forall (flight_ok R) (flights p').
Proof.
  intros Hp Hstep.
  destruct Hstep as [p d c|p mid fn args c|p|p|p dt|p i A X c k w0 r Hi];
    cbn [shared flights]; try done.
  - apply spawn_ok; [apply loadModule_ok | done].
  - apply spawn_ok; [apply executeFunction_ok | done].
  - pose proof (Forall_lookup_1 _ _ _ _ Hp Hi) as Hk. cbn in Hk.
    apply Forall_insert; [done|]. eapply segments_flight_ok, Hk.
Qed.

Lemma reachable_flights_ok p : reachable p -> Forall (flight_ok R) (flights p).
Proof.
  induction 1 as [t rnd|l p p' Hp IH Hstep]; [constructor|].
  by eapply pool_step_flights.
Qed.

End Segments.

(** ** The registry, the cache and the statistics under interleaving *)

Section Pools.
Context `{P : Platform}.

Lemma cleanupInstances_eq w :
  activeInstances (cleanupInstances w)
  = foldl (sweep (clock w)) (activeInstances w) (map_to_list (activeInstances w)).
Proof. reflexivity. Qed.

Lemma sweep_subseteq now l (acc : gmap string InstanceEntry) :
  foldl (sweep now) acc l ⊆ acc.
Proof.
  revert acc. induction l as [|[id e] l IH]; intros acc; cbn; [done|].
  etrans; [apply IH|]. case_bool_decide; [apply delete_subseteq | done].
Qed.

Lemma sweep_expired now l (acc : gmap string InstanceEntry) id e :
  (id, e) ∈ l -> now - ie_createdAt e > 5 * 60 * 1000 ->
  foldl (sweep now) acc l !! id = None.
Proof.
  revert acc. induction l as [|[id' e'] l IH]; intros acc Hin Hexp; [by apply elem_of_nil in Hin|].
  apply elem_of_cons in Hin as [[= <- <-]|Hin]; cbn.
  - rewrite bool_decide_eq_true_2 by done.
    eapply lookup_weaken_None; [apply lookup_delete_eq | apply sweep_subseteq].
  - by apply IH.
Qed.

Lemma sweep_fresh now l (acc : gmap string InstanceEntry) id :
  (forall e, (id, e) ∈ l -> ¬ (now - ie_createdAt e > 5 * 60 * 1000)) ->
  foldl (sweep now) acc l !! id = acc !! id.
Proof.
  revert acc. induction l as [|[id' e'] l IH]; intros acc Hl; cbn; [done|].
  rewrite IH by (intros e He; apply Hl; by right).
  case_bool_decide as Hexp; [|done].
  apply lookup_delete_ne. intros ->. eapply Hl; [by left | done].
Qed.

(** [cleanupInstances] keeps exactly the entries created at most five
    minutes before. *)
Lemma cleanupInstances_lookup w id :
  activeInstances (cleanupInstances w) !! id =
    match activeInstances w !! id with
    | Some e => if bool_decide (clock w - ie_createdAt e > 5 * 60 * 1000)
                then None else Some e
    | None => None
    end.
Proof.
  rewrite cleanupInstances_eq.
  destruct (activeInstances w !! id) as [e|] eqn:He.
  - case_bool_decide as Hexp.
    + eapply sweep_expired; [|done]. by apply elem_of_map_to_list.
    + rewrite sweep_fresh; [done|].
      intros e' He'. apply elem_of_map_to_list in He'. congruence.
  - eapply lookup_weaken_None; [done | apply sweep_subseteq].
Qed.

Lemma cleanupInstances_moduleCache w : moduleCache (cleanupInstances w) = moduleCache w.
Proof. reflexivity. Qed.

#[local] Instance keeps_unmetered_preorder : PreOrder keeps_unmetered.
Proof. split; unfold keeps_unmetered; [intros ?; tauto | intros ? ? ?; tauto]. Qed.

Lemma unmetered_total w : unmetered w -> totalMemoryUsage (getStats w) = 0.
Proof.
  unfold unmetered, getStats; cbn. intros H.
  apply map_Forall_to_list in H.
  induction H as [|[id e] l He _ IH]; cbn; [done|].
  cbn in He. rewrite He. cbn. apply IH.
Qed.

Lemma unmetered_same w w' :
  activeInstances w' = activeInstances w -> keeps_unmetered w w'.
Proof. unfold keeps_unmetered, unmetered. by intros ->. Qed.

Lemma unmetered_cleanup w : keeps_unmetered w (cleanupInstances w).
Proof.
  intros Hu id e. rewrite cleanupInstances_lookup.
  destruct (activeInstances w !! id) as [e'|] eqn:He; [|done].
  case_bool_decide; [done|]. intros [= <-]. by eapply Hu.
Qed.

Lemma reachable_unmetered p :
  reachable p -> unmetered (shared p) /\ Forall (flight_ok keeps_unmetered) (flights p).
Proof.
  induction 1 as [t rnd|l p p' Hp [IHw IHf] Hstep].
  - split; [apply map_Forall_empty | constructor].
  - destruct (pool_step_ok keeps_unmetered) with (l := l) (p := p) (p' := p')
      as [Hw Hf]; [..|split; [by apply Hw | done]]; try assumption.
    + intros; by apply unmetered_same.
    + intros w id i mid fn t Hu. by apply map_Forall_insert_2.
    + intros w id Hu. by apply map_Forall_delete.
    + intros; by apply unmetered_same.
    + intros; by apply unmetered_same.
    + apply unmetered_cleanup.
    + intros _ w. by apply unmetered_same.
Qed.

(** C10: in every state the runtime reaches, whatever calls were started
    and however they interleave, [getStats] reports [totalMemoryUsage] 0: no
    entry of the registry has a [memoryUsed]. *)
Theorem totalMemoryUsage_zero p :
  reachable p -> totalMemoryUsage (getStats (shared p)) = 0.
Proof. intros H. apply unmetered_total, reachable_unmetered, H. Qed.

#[local] Instance keeps_modules_preorder : PreOrder keeps_modules.
Proof.
  split; unfold keeps_modules.
  - intros w id H. exact H.
  - intros w1 w2 w3 H12 H23 id H. by apply H23, H12.
Qed.

Lemma keeps_modules_same w w' : moduleCache w' = moduleCache w -> keeps_modules w w'.
Proof. unfold keeps_modules. by intros ->. Qed.

Lemma keeps_modules_insert w id rec : keeps_modules w (set_moduleCache <[id := rec]> w).
Proof.
  intros id' H. cbn. destruct (decide (id = id')) as [->|Hne].
  - rewrite lookup_insert_eq. eauto.
  - by rewrite lookup_insert_ne.
Qed.

(** C7 (amended): [clearCache] removes every record from the module cache,
    whether or not live instances reference it; no other step of the
    runtime, in any interleaving of calls, removes a key from the cache. *)
Theorem only_clearCache_evicts :
  (forall w id, moduleCache (clearCache w) !! id = None)
  /\ (forall l p p',
        reachable p -> l <> LClearCache -> pool_step l p p' ->
        forall id, is_Some (moduleCache (shared p) !! id) ->
                   is_Some (moduleCache (shared p') !! id)).
Proof.
  split; [intros w id; apply lookup_empty|].
  intros l p p' Hp Hl Hstep.
  destruct (pool_step_ok keeps_modules) with (l := l) (p := p) (p' := p') as [Hw _];
    try done.
  - apply keeps_modules_insert.
  - intros; by apply keeps_modules_same.
  - intros; by apply keeps_modules_same.
  - intros; by apply keeps_modules_same.
  - intros; by apply keeps_modules_same.
  - intros; by apply keeps_modules_same.
  - apply reachable_flights_ok; [apply _ | apply keeps_modules_insert | ..]; try done;
      intros; by apply keeps_modules_same.
Qed.

(** Reaching states by starting calls and settling what they await. *)
Lemma reachable_loadModule p d cfg :
  reachable p -> reachable (spawn (loadModule d cfg) p).
Proof. intros Hp. eapply reachable_step; [exact Hp | apply step_loadModule]. Qed.

Lemma reachable_executeFunction p mid fn args cfg :
  reachable p -> reachable (spawn (executeFunction mid fn args cfg) p).
Proof. intros Hp. eapply reachable_step; [exact Hp | apply step_executeFunction]. Qed.

Lemma reachable_settle i o p : reachable p -> reachable (settle i o p).
Proof.
  intros Hp. unfold settle.
  destruct (flights p !! i) as [[A [r w|X c k w0]]|] eqn:Hi; try done.
  destruct (o X c) as [dt r|]; [|done].
  eapply reachable_step.
  - eapply reachable_step; [exact Hp | apply (step_tick p dt)].
  - apply (step_settle {| shared := advance dt (shared p); flights := flights p |}
             i A X c k w0 r Hi).
Qed.

(** A call of [loadModule] on bytes that pass validation and are not in the
    cache runs to [engine.module] and waits there, the world unchanged. *)
Lemma loadModule_miss (b : list byte) cfg w :
  moduleCache w !! generateModuleId (FromBuffer b) = None ->
  validateWasmBinary b = Normal tt ->
  exists k, loadModule (FromBuffer b) cfg w = Suspended (Compile b) k w.
Proof.
  intros Hmiss Hvalid. unfold loadModule. task_simpl.
  rewrite Hmiss. task_simpl. rewrite Hvalid. task_simpl. eauto.
Qed.

Lemma loadModule_hit d cfg w :
  is_Some (moduleCache w !! generateModuleId d) ->
  loadModule d cfg w = Finished (Normal (generateModuleId d)) w.
Proof.
  intros [rec Hrec]. unfold loadModule. task_simpl. by rewrite Hrec.
Qed.

Lemma compiles_in_flight_spawn {A} (t : Task A) p :
  compiles_in_flight (spawn t p)
  = (compiles_in_flight p + if awaits_compile (InFlight (t (shared p))) then 1 else 0)%nat.
Proof.
  unfold compiles_in_flight, spawn; cbn [flights].
  rewrite filter_app, length_app. f_equal.
  rewrite filter_cons, filter_nil.
  destruct (awaits_compile _); [by rewrite decide_True | by rewrite decide_False].
Qed.

(** C8 (amended): [loadModule] has no single flight. [n] calls for the same
    bytes, valid and not yet cached, that start before any of them settles
    each miss the cache and each call [engine.module]: [n] compiles are in
    flight at once. A call that starts when the record is cached calls the
    engine not at all. *)
Theorem concurrent_loads_each_compile (n : nat) p (b : list byte) cfg :
  moduleCache (shared p) !! generateModuleId (FromBuffer b) = None ->
  validateWasmBinary b = Normal tt ->
  (shared (Nat.iter n (spawn (loadModule (FromBuffer b) cfg)) p) = shared p
   /\ compiles_in_flight (Nat.iter n (spawn (loadModule (FromBuffer b) cfg)) p)
      = (compiles_in_flight p + n)%nat)
  /\ (forall q cfg',
        is_Some (moduleCache (shared q) !! generateModuleId (FromBuffer b)) ->
        shared (spawn (loadModule (FromBuffer b) cfg') q) = shared q
        /\ compiles_in_flight (spawn (loadModule (FromBuffer b) cfg') q)
           = compiles_in_flight q).
Proof.
  intros Hmiss Hvalid. split.
  - induction n as [|n [IHw IHc]]; [split; [done | cbn; lia]|].
    rewrite !Nat.iter_succ.
    set (q := Nat.iter n (spawn (loadModule (FromBuffer b) cfg)) p) in *.
    destruct (loadModule_miss b cfg (shared q)) as [k Hk]; [by rewrite IHw | done |].
    split.
    + unfold spawn; cbn [shared]. rewrite Hk. exact IHw.
    + rewrite compiles_in_flight_spawn, Hk, IHc. cbn. lia.
  - intros q cfg' Hhit. split.
    + unfold spawn; cbn [shared]. by rewrite loadModule_hit.
    + rewrite compiles_in_flight_spawn, loadModule_hit by done. cbn. lia.
Qed.

End Pools.

(** ** Loading and the module cache *)

Section Loading.
Context `{P : Platform}.
Implicit Types (o : Oracle) (w : World) (cfg : WasmModuleConfig).




(** C5 (amended): [cacheHitRate] is the constant 0.95 in every state; the
    runtime keeps no count of hits and misses, and a second load of the
    same bytes, a cache hit, leaves the whole statistics snapshot as it
    was. *)
Theorem cacheHitRate_constant :
  (forall w, cacheHitRate (getStats w) = (95 # 100)%Q)
  /\ (forall o d cfg w id w',
        is_Some (moduleCache w !! generateModuleId d) ->
        run o (loadModule d cfg w) = Done id w' ->
        getStats w' = getStats w).
Proof.
  split; [done|].
  intros o d cfg w id w' Hhit. rewrite loadModule_hit by done. cbn.
  by intros [= _ <-].
Qed.

End Loading.




Lemma cacheHitRate_constant_witness :
  getStats (outcome_world
              (run Demo.oracle
                 (loadModule (FromBuffer Demo.empty_module) Demo.no_limits Demo.loaded)))
  = getStats Demo.loaded.
Proof.
  destruct (run Demo.oracle
              (loadModule (FromBuffer Demo.empty_module) Demo.no_limits Demo.loaded))
    as [id w'|e w'|w'] eqn:Hrun; try (vm_compute in Hrun; discriminate).
  apply (proj2 cacheHitRate_constant Demo.oracle (FromBuffer Demo.empty_module)
           Demo.no_limits Demo.loaded id w'); [|exact Hrun].
  vm_compute. eauto.
Defined.

(** C5 fails as stated: the second load of the same bytes is a cache hit, and
    the [cacheHitRate] reported after it is not greater than before. *)
Lemma cacheHitRate_does_not_increase :
  compiles Demo.oracle
    (loadModule (FromBuffer Demo.empty_module) Demo.no_limits Demo.loaded) = 0%nat
  /\ ¬ (cacheHitRate (getStats Demo.loaded)
        < cacheHitRate
            (getStats
               (outcome_world
                  (run Demo.oracle
                     (loadModule (FromBuffer Demo.empty_module) Demo.no_limits
                        Demo.loaded)))))%Q.
Proof. split; [vm_compute; reflexivity|]. intros H. vm_compute in H. discriminate. Qed.

Lemma busy_reachable : reachable Demo.busy.
Proof.
  apply reachable_settle, reachable_executeFunction, reachable_settle,
    reachable_loadModule, reachable_new.
Qed.

Lemma totalMemoryUsage_zero_witness :
  totalMemoryUsage (getStats (shared Demo.busy)) = 0
  /\ stat_activeInstances (getStats (shared Demo.busy)) = 1%nat.
Proof.
  split; [apply (totalMemoryUsage_zero Demo.busy busy_reachable) | vm_compute; reflexivity].
Defined.

Lemma only_clearCache_evicts_witness :
  is_Some (moduleCache (cleanupInstances (shared Demo.busy)) !! Demo.empty_module_id).
Proof.
  apply (proj2 only_clearCache_evicts LCleanupInstances Demo.busy
           {| shared := cleanupInstances (shared Demo.busy); flights := flights Demo.busy |}
           busy_reachable ltac:(discriminate) (step_cleanupInstances Demo.busy)).
  vm_compute. eauto.
Defined.

(** C7 fails as stated: while a call of the module is in flight, its
    instance in the registry, [clearCache] removes the record of the
    module. *)
Lemma clearCache_evicts_referenced :
  reachable Demo.busy
  /\ referenceCount (shared Demo.busy) Demo.empty_module_id = 1%nat
  /\ is_Some (moduleCache (shared Demo.busy) !! Demo.empty_module_id)
  /\ moduleCache (clearCache (shared Demo.busy)) !! Demo.empty_module_id = None.
Proof.
  split; [exact busy_reachable|].
  split; [vm_compute; reflexivity|].
  split; [vm_compute; eauto | vm_compute; reflexivity].
Qed.

Lemma concurrent_loads_each_compile_witness :
  compiles_in_flight
    (Nat.iter 3 (spawn (loadModule (FromBuffer Demo.empty_module) Demo.no_limits))
       (new_pool 1000 []))
  = (compiles_in_flight (new_pool 1000 []) + 3)%nat.
Proof.
  apply (proj1 (concurrent_loads_each_compile 3 (new_pool 1000 []) Demo.empty_module
                  Demo.no_limits ltac:(vm_compute; reflexivity) ltac:(reflexivity))).
Defined.

(** C8 fails as stated: two calls of [loadModule] for the same new bytes,
    started together, both wait for a compile of their own; once both have
    settled the cache holds the one record. *)
Lemma two_compiles_in_flight :
  compiles_in_flight Demo.two_loads = 2%nat
  /\ base.size (moduleCache (shared (settle 1 Demo.oracle (settle 0 Demo.oracle Demo.two_loads))))
     = 1%nat.
Proof. split; vm_compute; reflexivity. Qed.

(** * Further properties of the runtime *)

Section MoreRuntime.
Context `{P : Platform}.
Implicit Types (o : Oracle) (w : World).

Lemma world_eq w w' :
  moduleCache w = moduleCache w' -> activeInstances w = activeInstances w' ->
  clock w = clock w' -> entropy w = entropy w' -> w = w'.
Proof. destruct w, w'; cbn; by intros -> -> -> ->. Qed.

(** X1: [cleanupInstances] keeps exactly the entries created at most five
    minutes before the clock, although it deletes from the map it iterates
    over; it leaves the module cache, the clock and the random draws alone,
    and a second sweep at the same time changes nothing. *)
Theorem cleanupInstances_keeps_recent w :
  (forall id,
     activeInstances (cleanupInstances w) !! id =
       match activeInstances w !! id with
       | Some e => if bool_decide (clock w - ie_createdAt e > 300000) then None else Some e
       | None => None
       end)
  /\ moduleCache (cleanupInstances w) = moduleCache w
  /\ clock (cleanupInstances w) = clock w
  /\ entropy (cleanupInstances w) = entropy w
  /\ cleanupInstances (cleanupInstances w) = cleanupInstances w.
Proof.
  split; [intros id; apply cleanupInstances_lookup|].
  repeat split.
  apply world_eq; try reflexivity.
  apply map_eq. intros id.
  rewrite (cleanupInstances_lookup (cleanupInstances w)), cleanupInstances_lookup.
  destruct (activeInstances w !! id) as [e|]; [|done].
  change (clock (cleanupInstances w)) with (clock w).
  case_bool_decide as H; [done|]. by rewrite bool_decide_eq_false_2.
Qed.

End MoreRuntime.

Section MoreLoading.
Context `{P : Platform}.
Implicit Types (o : Oracle) (w : World) (cfg : WasmModuleConfig).

Lemma loadModule_invalid (b : list byte) cfg w e :
  moduleCache w !! generateModuleId (FromBuffer b) = None ->
  validateWasmBinary b = Throw e ->
  loadModule (FromBuffer b) cfg w = Finished (Throw (load_error e)) w.
Proof.
  intros Hmiss Hv. unfold loadModule. task_simpl. rewrite Hmiss. task_simpl.
  rewrite Hv. reflexivity.
Qed.

Lemma run_load_buffer o (b : list byte) cfg w :
  moduleCache w !! generateModuleId (FromBuffer b) = None ->
  validateWasmBinary b = Normal tt ->
  run o (loadModule (FromBuffer b) cfg w) =
    match o _ (Compile b) with
    | Settles dt (Normal m) =>
        Done (generateModuleId (FromBuffer b))
          (stored (generateModuleId (FromBuffer b)) m cfg (length b) (advance dt w))
    | Settles dt (Throw e) => Thrown (load_error e) (advance dt w)
    | Never => Pending w
    end
  /\ compiles o (loadModule (FromBuffer b) cfg w) = 1%nat.
Proof.
  intros Hmiss Hv. unfold loadModule. task_simpl. rewrite Hmiss. task_simpl.
  rewrite Hv. task_simpl.
  destruct (o _ (Compile b)) as [dt [m|e]|]; task_simpl; done.
Qed.

Lemma run_load_path o (path : string) cfg w :
  moduleCache w !! generateModuleId (FromPath path) = None ->
  run o (loadModule (FromPath path) cfg w) =
    match o _ (ReadFile path) with
    | Never => Pending w
    | Settles dt (Throw e) => Thrown (load_error e) (advance dt w)
    | Settles dt (Normal b) =>
        match validateWasmBinary b with
        | Throw e => Thrown (load_error e) (advance dt w)
        | Normal _ =>
            match o _ (Compile b) with
            | Settles dt' (Normal m) =>
                Done (generateModuleId (FromPath path))
                  (stored (generateModuleId (FromPath path)) m cfg (length b)
                     (advance dt' (advance dt w)))
            | Settles dt' (Throw e) => Thrown (load_error e) (advance dt' (advance dt w))
            | Never => Pending (advance dt w)
            end
        end
    end.
Proof.
  intros Hmiss. unfold loadModule. task_simpl. rewrite Hmiss. task_simpl.
  destruct (o _ (ReadFile path)) as [dt [b|e]|]; task_simpl; try done.
  destruct (validateWasmBinary b) as [[]|e]; task_simpl; try done.
  destruct (o _ (Compile b)) as [dt' [m|e]|]; task_simpl; done.
Qed.

(** X2: [loadModule] validates before it compiles. A buffer that is not
    cached and fails validation is rejected at once with "Failed to load
    WebAssembly module: " and the reason, without any call to the engine and
    without any change to the runtime; a file read from a path that fails
    validation is rejected the same way, after the read and without a
    compile. *)
Theorem loadModule_validates_before_compiling o (b : list byte) cfg w e :
  validateWasmBinary b = Throw e ->
  (moduleCache w !! generateModuleId (FromBuffer b) = None ->
   loadModule (FromBuffer b) cfg w = Finished (Throw (load_error e)) w)
  /\ (forall path dt,
        moduleCache w !! generateModuleId (FromPath path) = None ->
        o _ (ReadFile path) = Settles dt (Normal b) ->
        run o (loadModule (FromPath path) cfg w) = Thrown (load_error e) (advance dt w)
        /\ compiles o (loadModule (FromPath path) cfg w) = 0%nat).
Proof.
  intros Hv. split; [intros Hmiss; by apply loadModule_invalid|].
  intros path dt Hmiss Hr. split.
  - rewrite run_load_path, Hr, Hv by done. reflexivity.
  - unfold loadModule. task_simpl. rewrite Hmiss. task_simpl. rewrite Hr. task_simpl.
    rewrite Hv. reflexivity.
Qed.

(** X3: a load of valid bytes that are not cached calls [engine.module]
    exactly once. When the compile resolves, the call resolves to the
    identifier and the cache has gained one record under it (the module, the
    configuration given, the time of completion and the number of bytes), so
    that [loadedModules] grows by one; the registry is untouched. When the
    compile rejects, the call rejects with the wrapped message and cache and
    registry are as before. *)
Theorem loadModule_stores_one_record o (b : list byte) cfg w dt :
  moduleCache w !! generateModuleId (FromBuffer b) = None ->
  validateWasmBinary b = Normal tt ->
  compiles o (loadModule (FromBuffer b) cfg w) = 1%nat
  /\ (forall m,
        o _ (Compile b) = Settles dt (Normal m) ->
        exists w',
          run o (loadModule (FromBuffer b) cfg w) = Done (generateModuleId (FromBuffer b)) w'
          /\ moduleCache w' =
               <[generateModuleId (FromBuffer b) :=
                   {| mr_module := m; mr_config := cfg; mr_loadedAt := clock w + dt;
                      mr_size := length b |}]> (moduleCache w)
          /\ loadedModules (getStats w') = S (loadedModules (getStats w))
          /\ activeInstances w' = activeInstances w
          /\ clock w' = clock w + dt)
  /\ (forall e,
        o _ (Compile b) = Settles dt (Throw e) ->
        exists w',
          run o (loadModule (FromBuffer b) cfg w) = Thrown (load_error e) w'
          /\ moduleCache w' = moduleCache w /\ activeInstances w' = activeInstances w).
Proof.
  intros Hmiss Hv. destruct (run_load_buffer o b cfg w Hmiss Hv) as [Hrun Hc].
  split; [exact Hc|]. split.
  - intros m Ho. rewrite Ho in Hrun. eexists. split; [exact Hrun|].
    repeat split. cbn. by apply map_size_insert_None.
  - intros e Ho. rewrite Ho in Hrun. eexists. split; [exact Hrun|]. done.
Qed.

(** X4: [loadModule] of a path that is not cached reads the file. A read
    that fails (no such file) rejects the call with the wrapped message,
    without a compile. A read of valid bytes followed by a successful compile
    stores the record under the digest of the path, with the size of the
    bytes read, after one compile; from then on a load of the same path
    resolves at once, without reading the file again. *)
Theorem loadModule_from_path o (path : string) cfg w dt :
  moduleCache w !! generateModuleId (FromPath path) = None ->
  (forall e,
     o _ (ReadFile path) = Settles dt (Throw e) ->
     run o (loadModule (FromPath path) cfg w) = Thrown (load_error e) (advance dt w)
     /\ compiles o (loadModule (FromPath path) cfg w) = 0%nat)
  /\ (forall (b : list byte) dt' m,
        o _ (ReadFile path) = Settles dt (Normal b) ->
        validateWasmBinary b = Normal tt ->
        o _ (Compile b) = Settles dt' (Normal m) ->
        exists w',
          run o (loadModule (FromPath path) cfg w) = Done (generateModuleId (FromPath path)) w'
          /\ moduleCache w' =
               <[generateModuleId (FromPath path) :=
                   {| mr_module := m; mr_config := cfg; mr_loadedAt := clock w + dt + dt';
                      mr_size := length b |}]> (moduleCache w)
          /\ compiles o (loadModule (FromPath path) cfg w) = 1%nat
          /\ forall cfg',
               loadModule (FromPath path) cfg' w'
               = Finished (Normal (generateModuleId (FromPath path))) w').
Proof.
  intros Hmiss. split.
  - intros e Hr. split; [by rewrite run_load_path, Hr|].
    unfold loadModule. task_simpl. rewrite Hmiss. task_simpl. by rewrite Hr.
  - intros b dt' m Hr Hv Hc. eexists. split; [|split; [|split]].
    + rewrite run_load_path, Hr, Hv, Hc by done. reflexivity.
    + reflexivity.
    + unfold loadModule. task_simpl. rewrite Hmiss. task_simpl. rewrite Hr. task_simpl.
      rewrite Hv. task_simpl. by rewrite Hc.
    + intros cfg'. apply loadModule_hit. cbn. rewrite lookup_insert_eq. eauto.
Qed.

End MoreLoading.

Section MoreExecute.
Context `{P : Platform}.
Implicit Types (o : Oracle) (w : World) (cfg : WasmExecutionConfig).

Lemma released_registered mid fn (i : Instance) dt' w :
  activeInstances (released mid fn (clock w) (advance dt' (registered mid fn i w)))
  = delete (instanceIdAt mid fn (clock w)) (activeInstances w).
Proof. cbn. apply delete_insert_eq. Qed.

(** X5: loading then executing. With an engine that compiles the bytes,
    instantiates the module and runs the exported function to the value [v],
    [loadModule] followed by [executeFunction] on the identifier it returned
    yields [v] with [success] true and no error, an [executionTime] of the
    time instantiation and call took, an unchanged cache and a registry
    without the entry of the call. *)
Theorem load_then_execute o (b : list byte) mcfg cfg fn args w m i f v dt1 dt2 dt3 :
  moduleCache w !! generateModuleId (FromBuffer b) = None ->
  validateWasmBinary b = Normal tt ->
  o _ (Compile b) = Settles dt1 (Normal m) ->
  o _ (Instantiate m (wasiEnabled cfg) (imports cfg)) = Settles dt2 (Normal i) ->
  wasiEnabled cfg = false ->
  instance_get i fn = Some f ->
  o _ (Invoke f args) = Settles dt3 (Normal v) ->
  exists id w1 r w2,
    run o (loadModule (FromBuffer b) mcfg w) = Done id w1
    /\ run o (executeFunction id fn args cfg w1) = Done r w2
    /\ result r = v /\ success r = true /\ error r = None
    /\ executionTime r = dt2 + dt3
    /\ moduleCache w2 = moduleCache w1
    /\ activeInstances w2
       = delete (instanceIdAt id fn (clock w + dt1 + dt2)) (activeInstances w).
Proof.
  intros Hmiss Hv Hc Hi Hw Hg Hf.
  destruct (run_load_buffer o b mcfg w Hmiss Hv) as [Hrun _]. rewrite Hc in Hrun.
  eexists _, _, _, _. split; [exact Hrun|].
  split.
  { eapply (exec_guest_returns o _ _ fn args cfg
              {| mr_module := m; mr_config := mcfg; mr_loadedAt := clock w + dt1;
                 mr_size := length b |});
      [|exact Hi|exact Hw|exact Hg|exact Hf].
    cbn. apply lookup_insert_eq. }
  repeat split.
  apply (released_registered _ fn i dt3
           (advance dt2 (stored (generateModuleId (FromBuffer b)) m mcfg (length b)
                           (advance dt1 w)))).
Qed.

(** X6: [clearCache] forgets every compiled module and nothing else. After
    it [loadedModules] is 0 and the registry is as before; a call of
    [executeFunction], for any identifier, fails at once with "Module <id>
    not found" without reaching the engine; and a load of valid bytes
    compiles again. *)
Theorem clearCache_forgets_modules w :
  activeInstances (clearCache w) = activeInstances w
  /\ loadedModules (getStats (clearCache w)) = 0%nat
  /\ (forall mid fn args cfg,
        executeFunction mid fn args cfg (clearCache w)
        = Finished (Normal (failure ("Module " +:+ mid +:+ " not found"))) (clearCache w))
  /\ (forall o (b : list byte) mcfg,
        validateWasmBinary b = Normal tt ->
        compiles o (loadModule (FromBuffer b) mcfg (clearCache w)) = 1%nat).
Proof.
  split; [done|]. split; [done|]. split.
  - intros mid fn args cfg. unfold executeFunction. task_simpl. cbn.
    rewrite lookup_empty. reflexivity.
  - intros o b mcfg Hv. apply run_load_buffer; [apply lookup_empty | done].
Qed.

(** X7: with [enableWasi] true no call succeeds. The object [createWasi]
    returns has no [start], so that once the module is instantiated the call
    fails with "wasi.start is not a function"; whatever the engine does, a
    result that is returned has [success] false and the registry is left as
    it was. *)
Theorem enableWasi_never_succeeds o w mid fn args cfg :
  enableWasi cfg = Some true ->
  (forall r w', run o (executeFunction mid fn args cfg w) = Done r w' -> success r = false)
  /\ activeInstances (outcome_world (run o (executeFunction mid fn args cfg w)))
     = activeInstances w
  /\ (forall m dt i,
        moduleCache w !! mid = Some m ->
        o _ (Instantiate (mr_module m) true (imports cfg)) = Settles dt (Normal i) ->
        run o (executeFunction mid fn args cfg w)
        = Done (failure "wasi.start is not a function") (advance dt w)).
Proof.
  intros He. assert (wasiEnabled cfg = true) as Hw by (unfold wasiEnabled; by rewrite He).
  assert (forall m dt i,
        moduleCache w !! mid = Some m ->
        o _ (Instantiate (mr_module m) true (imports cfg)) = Settles dt (Normal i) ->
        run o (executeFunction mid fn args cfg w)
        = Done (failure "wasi.start is not a function") (advance dt w)) as Hstart.
  { intros m dt i Hm Ho. eapply exec_wasi_start; [done| |done]. by rewrite Hw. }
  assert ((exists msg w', run o (executeFunction mid fn args cfg w) = Done (failure msg) w'
                          /\ activeInstances w' = activeInstances w)
          \/ run o (executeFunction mid fn args cfg w) = Pending w) as Hshape.
  { destruct (moduleCache w !! mid) as [m|] eqn:Hm.
    2: { left. rewrite exec_unknown_module by done. eauto. }
    destruct (o _ (Instantiate (mr_module m) true (imports cfg))) as [dt [i|e]|] eqn:Ho.
    - left. rewrite (Hstart m dt i) by done. eauto.
    - left. erewrite exec_instantiate_throws by (done || by rewrite Hw). eauto.
    - right. erewrite exec_instantiate_hangs by (done || by rewrite Hw). done. }
  split; [|split; [|exact Hstart]].
  - intros r w' Hrun. destruct Hshape as [(msg & w1 & H1 & _)|H1]; rewrite H1 in Hrun.
    + by injection Hrun as <- <-.
    + discriminate.
  - destruct Hshape as [(msg & w1 & H0 & H1)|H0]; rewrite H0; done.
Qed.

End MoreExecute.

Section MoreExecute2.
Context `{P : Platform}.
Implicit Types (o : Oracle) (w : World) (cfg : WasmExecutionConfig).



(** X9: how long a leaked instance stays. The entry a call leaves behind
    when the function is not exported survives every [cleanupInstances]
    sweep run at most five minutes (300000 ms) after its creation and is
    removed by a sweep run later than that. *)
Theorem leaked_instance_lifetime o w mid fn args cfg m dt i later :
  moduleCache w !! mid = Some m ->
  o _ (Instantiate (mr_module m) (wasiEnabled cfg) (imports cfg)) = Settles dt (Normal i) ->
  wasiEnabled cfg = false ->
  instance_get i fn = None ->
  exists w',
    run o (executeFunction mid fn args cfg w)
    = Done (failure ("Function " +:+ fn +:+ " not found in module")) w'
    /\ (later <= 300000 ->
        is_Some (activeInstances (cleanupInstances (advance later w'))
                 !! instanceIdAt mid fn (clock w + dt)))
    /\ (300000 < later ->
        activeInstances (cleanupInstances (advance later w'))
        !! instanceIdAt mid fn (clock w + dt) = None).
Proof.
  intros Hm Ho Hw Hg. eexists. split; [by eapply exec_missing_export|].
  pose proof (registered_lookup mid fn i (advance dt w)) as Hreg.
  change (clock (advance dt w)) with (clock w + dt) in Hreg.
  split; intros Hl; rewrite cleanupInstances_lookup;
    change (activeInstances (advance later (registered mid fn i (advance dt w))))
      with (activeInstances (registered mid fn i (advance dt w)));
    rewrite Hreg; cbn.
  - rewrite bool_decide_eq_false_2 by lia. eauto.
  - rewrite bool_decide_eq_true_2 by lia. done.
Qed.

End MoreExecute2.

Section Separation.
Context `{P : Platform}.
Implicit Types (o : Oracle) (w : World).

(** What a run alone leaves is what its segments leave. *)
Lemma run_segments {A} (R : World -> World -> Prop) `{!PreOrder R} o w0 (s : Step A) :
  (forall w dt, R w (advance dt w)) ->
  segments R w0 s -> R w0 (outcome_world (run o s)).
Proof.
  intros Hadv. revert w0. induction s as [[a|e] w|X c k IH w]; cbn; intros w0 Hs; try done.
  destruct Hs as [H0 Hk]. destruct (o X c) as [dt r|]; cbn; [|done].
  etrans; [exact H0|]. etrans; [apply (Hadv w dt)|]. apply IH, Hk.
Qed.

#[local] Instance same_cache_preorder : PreOrder same_cache.
Proof. split; unfold same_cache; [done | intros ? ? ?; congruence]. Qed.

#[local] Instance same_registry_preorder : PreOrder same_registry.
Proof.
  split; unfold same_registry; [done|].
  intros ? ? ? [? ?] [? ?]. split; congruence.
Qed.

(** X12: each method keeps to its map. [executeFunction] never changes the
    module cache and [loadModule] never changes the registry of instances
    nor consumes a random draw, in every segment of every interleaving and
    hence in whatever state a call run alone ends, hangs or fails. *)
Theorem methods_keep_to_their_map :
  (forall mid fn args cfg,
     task_ok same_cache (executeFunction mid fn args cfg)
     /\ forall o w, moduleCache (outcome_world (run o (executeFunction mid fn args cfg w)))
                    = moduleCache w)
  /\ (forall d cfg,
        task_ok same_registry (loadModule d cfg)
        /\ forall o w,
             activeInstances (outcome_world (run o (loadModule d cfg w))) = activeInstances w
             /\ entropy (outcome_world (run o (loadModule d cfg w))) = entropy w).
Proof.
  split.
  - intros mid fn args cfg.
    assert (task_ok same_cache (executeFunction mid fn args cfg)) as Hok
      by (apply executeFunction_ok; [apply _ | done..]).
    split; [exact Hok|]. intros o w.
    apply (run_segments same_cache o w); [done | apply Hok].
  - intros d cfg.
    assert (task_ok same_registry (loadModule d cfg)) as Hok
      by (apply loadModule_ok; [apply _ | done]).
    split; [exact Hok|]. intros o w.
    apply (run_segments same_registry o w); [done | apply Hok].
Qed.

End Separation.

Section Identifiers.
Context `{P : Platform}.

Lemma round_length st kw : length (SHA256.round st kw) = length st.
Proof.
  unfold SHA256.round.
  destruct st as [|a [|b [|c [|d [|e [|f [|g [|h [|x st]]]]]]]]]; reflexivity.
Qed.

Lemma fold_round_length l h : length (fold_left SHA256.round l h) = length h.
Proof.
  revert h. induction l as [|kw l IH]; intros h; cbn; [done|].
  by rewrite IH, round_length.
Qed.

Lemma compress_length h block : length (SHA256.compress h block) = length h.
Proof.
  unfold SHA256.compress. rewrite length_fmap, length_combine, fold_round_length. lia.
Qed.

Lemma blocks_length n h bytes : length (SHA256.blocks n h bytes) = length h.
Proof.
  revert h bytes. induction n as [|n IH]; intros h bytes; cbn; [done|].
  by rewrite IH, compress_length.
Qed.

Lemma digest_length msg : length (SHA256.digest msg) = 8%nat.
Proof. unfold SHA256.digest. by rewrite blocks_length. Qed.

Lemma hexdigit_hex (z : Z) :
  SHA256.hexdigit (Z.land z 0xf) ∈ list_ascii_of_string "0123456789abcdef".
Proof.
  change 0xf with (Z.ones 4). rewrite Z.land_ones by lia.
  pose proof (Z.mod_pos_bound z (2 ^ 4) ltac:(lia)) as Hb.
  assert (exists n : nat, (n < 16)%nat /\ z mod 2 ^ 4 = Z.of_nat n) as (n & Hn & Heq).
  { exists (Z.to_nat (z mod 2 ^ 4)). lia. }
  rewrite Heq. clear Heq Hb.
  do 16 (destruct n as [|n]; [vm_compute; set_solver|]). lia.
Qed.

(** X10: a module identifier is always 16 characters long, each of them a
    lowercase hexadecimal digit, for a buffer and for a path alike. *)
Theorem generateModuleId_format (d : WasmData) :
  String.length (generateModuleId d) = 16%nat
  /\ forall c, c ∈ list_ascii_of_string (generateModuleId d) ->
               c ∈ list_ascii_of_string "0123456789abcdef".
Proof.
  unfold generateModuleId.
  set (msg := match d with FromBuffer b => b | FromPath path => list_byte_of_string path end).
  assert (match d with
          | FromPath path => SHA256.hex (list_byte_of_string path)
          | FromBuffer b => SHA256.hex b
          end = SHA256.hex msg) as -> by (by destruct d).
  unfold SHA256.hex. pose proof (digest_length msg) as Hlen.
  destruct (SHA256.digest msg) as [|w0 [|w1 [|w2 [|w3 [|w4 [|w5 [|w6 [|w7 [|? ?]]]]]]]]];
    try discriminate.
  cbn. split; [reflexivity|].
  intros c Hc. repeat (apply elem_of_cons in Hc as [->|Hc]; [apply hexdigit_hex|]).
  by apply elem_of_nil in Hc.
Qed.

Lemma to_int_not_nil (z : Z) : Z.to_int z <> Decimal.Pos Decimal.Nil /\ Z.to_int z <> Decimal.Neg Decimal.Nil.
Proof.
  destruct z as [|p|p]; cbn; split; try discriminate; intros [= H];
    by apply (Stdlib.Numbers.DecimalPos.Unsigned.to_uint_nonnil p).
Qed.

Lemma dec_inj (z z' : Z) : dec z = dec z' -> z = z'.
Proof.
  unfold dec. intros H. apply Stdlib.Numbers.DecimalZ.to_int_inj.
  destruct (to_int_not_nil z), (to_int_not_nil z').
  assert (NilZero.int_of_string (NilZero.string_of_int (Z.to_int z))
          = NilZero.int_of_string (NilZero.string_of_int (Z.to_int z'))) as Hp by (by rewrite H).
  rewrite !NilZero.isi in Hp by done. by injection Hp.
Qed.

Lemma append_inj_l (p s s' : string) : p +:+ s = p +:+ s' -> s = s'.
Proof. induction p as [|c p IH]; cbn; [done|]. intros [= H]. by apply IH. Qed.

End Identifiers.

Section Collisions.
Context `{P : Platform}.
Implicit Types (o : Oracle) (w : World) (cfg : WasmExecutionConfig).

(** The segments of a call whose module is cached and whose function is
    exported: up to the instantiation, from there to the guest call, and
    from its return to the end. *)
Lemma executeFunction_stages mid fn args cfg m f w :
  moduleCache w !! mid = Some m ->
  wasiEnabled cfg = false ->
  exists k,
    executeFunction mid fn args cfg w
    = Suspended (Instantiate (mr_module m) false (imports cfg)) k w
    /\ forall i w1,
         instance_get i fn = Some f ->
         exists k',
           k (Normal i) w1 = Suspended (Invoke f args) k' (registered mid fn i w1)
           /\ forall v w2,
                exists r, k' (Normal v) w2
                          = Finished (Normal r) (released mid fn (clock w1) w2).
Proof.
  intros Hm Hw.
  assert (default false (enableWasi cfg) = false) as Hw' by exact Hw.
  unfold executeFunction. task_simpl. rewrite Hm. task_simpl.
  rewrite wasi_flag, Hw. eexists. split; [reflexivity|].
  intros i w1 Hg. cbn beta. rewrite Hw'. task_simpl. rewrite Hg. task_simpl.
  eexists. split; [reflexivity|].
  intros v w2. cbn beta. task_simpl. eexists. reflexivity.
Qed.

Lemma settle_at i o p A X (c : EngineCall X) (k : Completion X -> World -> Step A) w0 dt r :
  flights p !! i = Some (InFlight (Suspended c k w0)) ->
  o X c = Settles dt r ->
  settle i o p
  = {| shared := step_world (k r (advance dt (shared p)));
       flights := <[i := InFlight (k r (advance dt (shared p)))]> (flights p) |}.
Proof. intros Hi Ho. unfold settle. by rewrite Hi, Ho. Qed.

(** X11: instance identifiers are unique per millisecond only. For one
    module and function, identifiers generated at different times differ.
    Two calls of the same function registered within the same millisecond
    share one entry of the registry: while both guests run the registry has
    gained a single entry, and when the first call returns it deletes that
    entry although the second guest is still running. *)
Theorem instanceId_per_millisecond o w mid fn args cfg m i f dt' v :
  moduleCache w !! mid = Some m ->
  o _ (Instantiate (mr_module m) false (imports cfg)) = Settles 0 (Normal i) ->
  wasiEnabled cfg = false ->
  instance_get i fn = Some f ->
  o _ (Invoke f args) = Settles dt' (Normal v) ->
  (forall t t', instanceIdAt mid fn t = instanceIdAt mid fn t' <-> t = t')
  /\ (let call := executeFunction mid fn args cfg in
      let both := settle 1 o (settle 0 o (spawn call (spawn call
                    {| shared := w; flights := [] |}))) in
      let first_returned := settle 0 o both in
      guests_in_flight both = 2%nat
      /\ activeInstances (shared both)
         = <[instanceIdAt mid fn (clock w) :=
               {| ie_instance := i; ie_moduleId := mid; ie_functionName := fn;
                  ie_createdAt := clock w; ie_memoryUsed := None |}]> (activeInstances w)
      /\ guests_in_flight first_returned = 1%nat
      /\ activeInstances (shared first_returned)
         = delete (instanceIdAt mid fn (clock w)) (activeInstances w)).
Proof.
  intros Hm Ho Hw Hg Hf. split.
  { intros t t'. split; [|by intros ->]. unfold instanceIdAt. intros H.
    apply dec_inj. by do 4 apply append_inj_l in H. }
  destruct (executeFunction_stages mid fn args cfg m f w Hm Hw) as (k & Hk & Hk1).
  destruct (Hk1 i (advance 0 w) Hg) as (ka & Hka & Hka2).
  destruct (Hk1 i (advance 0 (registered mid fn i (advance 0 w))) Hg) as (kb & Hkb & Hkb2).
  destruct (Hka2 v (advance dt' (registered mid fn i
              (advance 0 (registered mid fn i (advance 0 w)))))) as (r & Hr).
  cbv zeta.
  set (w1 := registered mid fn i (advance 0 w)) in *.
  set (w2 := registered mid fn i (advance 0 w1)) in *.
  assert (spawn (executeFunction mid fn args cfg)
            (spawn (executeFunction mid fn args cfg) {| shared := w; flights := [] |})
          = {| shared := w;
               flights := [InFlight (Suspended (Instantiate (mr_module m) false (imports cfg)) k w);
                           InFlight (Suspended (Instantiate (mr_module m) false (imports cfg)) k w)] |})
    as ->.
  { unfold spawn. cbn [shared flights]. rewrite Hk. cbn [step_world]. by rewrite Hk. }
  erewrite (settle_at 0) by (reflexivity || exact Ho). cbn [shared flights]. rewrite Hka.
  cbn [step_world insert list_insert].
  erewrite (settle_at 1) by (reflexivity || exact Ho). cbn [shared flights]. rewrite Hkb.
  cbn [step_world insert list_insert].
  cbv zeta.
  erewrite (settle_at 0) by (reflexivity || exact Hf). cbn [shared flights]. rewrite Hr.
  cbn [step_world insert list_insert shared flights].
  unfold guests_in_flight. cbn. rewrite !Z.add_0_r.
  repeat split.
  - apply insert_insert_eq.
  - rewrite insert_insert_eq. apply delete_insert_eq.
Qed.

End Collisions.

(** * Properties of the route *)

Ltac htask_simpl :=
  cbv [mbind mret htask_bind htask_ret hbind hret hthrow hgets hlift hawait htry_catch
       ignoring_errors embed];
  cbn [hbind_step hcatch_step hrun fs_ops fs_op app].

Section RouteProperties.
Context `{H : Host}.
Implicit Types (ho : HostOracle) (w : World).

(** A method of the runtime awaited inside the two [try] blocks of the
    handler: the handler goes on from what the method, run by the engine
    alone, resolves or rejects to, and the method touches no file. *)
Lemma hrun_embedded {A B} ho (s : Step A) (g : A -> HTask B) (h1 h2 : JsError -> HTask B) :
  hrun ho (hcatch_step (hcatch_step (hbind_step (embed_step s) g) h1) h2)
  = match run (engine_of ho) s with
    | Done a w => hrun ho (hcatch_step (hcatch_step (g a w) h1) h2)
    | Thrown e w => hrun ho (hcatch_step (h1 e w) h2)
    | Pending w => Pending w
    end.
Proof.
  induction s as [[a|e] w|X c k IH w]; cbn; try done.
  unfold engine_of at 1. destruct (ho X (Engine c)) as [dt r|]; [apply IH | done].
Qed.

Lemma fs_ops_embedded {A B} ho (s : Step A) (g : A -> HTask B) (h1 h2 : JsError -> HTask B) :
  fs_ops ho (hcatch_step (hcatch_step (hbind_step (embed_step s) g) h1) h2)
  = match run (engine_of ho) s with
    | Done a w => fs_ops ho (hcatch_step (hcatch_step (g a w) h1) h2)
    | Thrown e w => fs_ops ho (hcatch_step (h1 e w) h2)
    | Pending w => []
    end.
Proof.
  induction s as [[a|e] w|X c k IH w]; cbn; try done.
  unfold engine_of at 1. destruct (ho X (Engine c)) as [dt r|]; [apply IH | done].
Qed.

(** The handler never rejects. *)
Lemma hrun_catch_all {A} ho (s : HStep A) (h : JsError -> A) e w :
  hrun ho (hcatch_step s (fun e w => HFinished (Normal (h e)) w)) <> Thrown e w.
Proof.
  revert w. induction s as [[a|e'] w'|X c k IH w']; cbn; intros w; try done.
  destruct (ho X c) as [dt r|]; [apply IH | done].
Qed.

Lemma catch_rethrow_thrown {A} (o : Oracle) (s : Step A) (h : JsError -> JsError) e w' :
  run o (catch_step s (fun e0 => throw (h e0))) = Thrown e w' -> exists e0, e = h e0.
Proof.
  revert w'. induction s as [[a|e1] w1|X c k IH w1]; cbn; intros w'; try done.
  - intros [= <- <-]. by eexists.
  - destruct (o X c) as [dt r|]; [apply IH | done].
Qed.

Lemma loadModule_rejections_wrapped (o : Oracle) d cfg w e w' :
  run o (loadModule d cfg w) = Thrown e w' -> exists e0, e = load_error e0.
Proof.
  unfold loadModule, try_catch. intros Hrun.
  by apply catch_rethrow_thrown in Hrun.
Qed.

(** X15: the early exits of the handler. The [args] field is parsed before
    the file is looked at: when it is not valid JSON the answer is 500 with
    the message of the parse error, whether or not a file was sent. When the
    fields parse and no file was sent the answer is 400 with "WebAssembly
    file is required". In both cases nothing is written or removed and the
    runtime is not called. *)
Theorem POST_early_exits ho request w form d1 :
  ho _ (ReadForm request) = Settles d1 (Normal form) ->
  (forall e,
     parse_args (text_or "[]" (form_args form)) = Throw e ->
     hrun ho (POST request w)
     = Done {| status := 500;
               body := ErrorBody (text_or "Failed to execute WebAssembly module"
                                    (Some (message e))) |} (advance d1 w)
     /\ fs_ops ho (POST request w) = [])
  /\ (forall args cfg,
        parse_args (text_or "[]" (form_args form)) = Normal args ->
        parse_config (text_or "{}" (form_config form)) = Normal cfg ->
        form_wasmFile form = None ->
        hrun ho (POST request w)
        = Done {| status := 400; body := ErrorBody "WebAssembly file is required" |}
               (advance d1 w)
        /\ fs_ops ho (POST request w) = []).
Proof.
  intros Hform. split.
  - intros e Hargs. unfold POST. htask_simpl. rewrite Hform. htask_simpl.
    rewrite Hargs. htask_simpl. done.
  - intros args cfg Hargs Hcfg Hfile. unfold POST. htask_simpl. rewrite Hform. htask_simpl.
    rewrite Hargs. htask_simpl. rewrite Hcfg. htask_simpl. rewrite Hfile. done.
Qed.

(** X17: the handler never rejects: whatever the request, the runtime, the
    engine and the file system do, a run that ends ends with a response. *)
Theorem POST_never_rejects ho request w e w' : hrun ho (POST request w) <> Thrown e w'.
Proof. unfold POST, htry_catch. apply hrun_catch_all. Qed.

End RouteProperties.

Section Uploaded.
Context `{H : Host}.
Variables (ho : HostOracle) (request : Request) (w : World) (form : Form) (file : File).
Variables (args : list JsVal) (cfg : WasmExecutionConfig) (b : list byte).
Variables (d1 d2 d3 d4 d5 : Z) (made removed : Completion unit).


Hypothesis Hform : ho _ (ReadForm request) = Settles d1 (Normal form).
Hypothesis Hfile : form_wasmFile form = Some file.
Hypothesis Hargs : parse_args (text_or "[]" (form_args form)) = Normal args.
Hypothesis Hcfg : parse_config (text_or "{}" (form_config form)) = Normal cfg.
Hypothesis Hmkdir : ho _ (Mkdir uploadsDir) = Settles d2 made.
Hypothesis Hbytes : ho _ (ArrayBuffer file) = Settles d3 (Normal b).
Hypothesis Hwrite : ho _ (WriteFile (uploadPath (clock w + d1 + d2) file) b) = Settles d4 (Normal tt).
Hypothesis Hunlink : ho _ (Unlink (uploadPath (clock w + d1 + d2) file)) = Settles d5 removed.

(** X13: an execution that fails is still answered with status 200. Once
    the upload is written and [loadModule] resolves, the handler answers 200
    with the module identifier, the result of [executeFunction] as it is,
    also when its [success] is false, and the statistics taken after the
    call; the uploaded file is written once and unlinked once, whether or
    not creating the directory or unlinking fails. *)
Theorem POST_reports_execution id w1 r w2 :
  run (engine_of ho) (loadModule (FromBuffer b) (module_view cfg)
         (advance d4 (advance d3 (advance d2 (advance d1 w))))) = Done id w1 ->
  run (engine_of ho) (executeFunction id (form_functionName form) args cfg w1) = Done r w2 ->
  hrun ho (POST request w)
  = Done {| status := 200; body := ExecutionBody id r (getStats (advance d5 w2)) |}
         (advance d5 w2)
  /\ fs_ops ho (POST request w) = [OpMkdir uploadsDir; OpWriteFile (uploadPath (clock w + d1 + d2) file) b; OpUnlink (uploadPath (clock w + d1 + d2) file)].
Proof.
  intros Hload Hexec. unfold POST. htask_simpl. rewrite Hform. htask_simpl.
  rewrite Hargs. htask_simpl. rewrite Hcfg. htask_simpl. rewrite Hfile. htask_simpl.
  fold uploadsDir. rewrite Hmkdir.
  assert (forall wx, match made with
                     | Normal a => @HFinished _ _ unit (Normal a) wx
                     | Throw _ => HFinished (Normal tt) wx
                     end = HFinished (Normal tt) wx) as Hmade.
  { intros wx. by destruct made as [[]|me]. }
  cbv beta. rewrite !Hmade. htask_simpl.
  change (clock (advance d2 (advance d1 w))) with (clock w + d1 + d2).
  fold (uploadPath (clock w + d1 + d2) file).
  rewrite Hbytes. htask_simpl. rewrite Hwrite. htask_simpl.
  rewrite hrun_embedded, fs_ops_embedded, Hload.
  htask_simpl. rewrite hrun_embedded, fs_ops_embedded, Hexec.
  htask_simpl. rewrite Hunlink.
  by destruct removed as [[]|e].
Qed.

(** X14: a module that cannot be loaded is answered with status 500 and the
    message "Failed to load WebAssembly module: " followed by the reason;
    the uploaded file is unlinked all the same. *)
Theorem POST_load_failure e w1 :
  run (engine_of ho) (loadModule (FromBuffer b) (module_view cfg)
         (advance d4 (advance d3 (advance d2 (advance d1 w))))) = Thrown e w1 ->
  exists reason,
    hrun ho (POST request w)
    = Done {| status := 500;
              body := ErrorBody ("Failed to load WebAssembly module: " +:+ reason) |}
           (advance d5 w1)
    /\ fs_ops ho (POST request w) = [OpMkdir uploadsDir; OpWriteFile (uploadPath (clock w + d1 + d2) file) b; OpUnlink (uploadPath (clock w + d1 + d2) file)].
Proof.
  intros Hload.
  destruct (loadModule_rejections_wrapped _ _ _ _ _ _ Hload) as [e0 ->].
  exists (message e0).
  unfold POST. htask_simpl. rewrite Hform. htask_simpl.
  rewrite Hargs. htask_simpl. rewrite Hcfg. htask_simpl. rewrite Hfile. htask_simpl.
  fold uploadsDir. rewrite Hmkdir.
  assert (forall wx, match made with
                     | Normal a => @HFinished _ _ unit (Normal a) wx
                     | Throw _ => HFinished (Normal tt) wx
                     end = HFinished (Normal tt) wx) as Hmade.
  { intros wx. by destruct made as [[]|me]. }
  cbv beta. rewrite !Hmade. htask_simpl.
  change (clock (advance d2 (advance d1 w))) with (clock w + d1 + d2).
  fold (uploadPath (clock w + d1 + d2) file).
  rewrite Hbytes. htask_simpl. rewrite Hwrite. htask_simpl.
  rewrite hrun_embedded, fs_ops_embedded, Hload.
  htask_simpl. rewrite Hunlink.
  by destruct removed as [[]|e].
Qed.

End Uploaded.

Section UploadFails.
Context `{H : Host}.
Variables (ho : HostOracle) (request : Request) (w : World) (form : Form) (file : File).
Variables (args : list JsVal) (cfg : WasmExecutionConfig) (b : list byte).
Variables (d1 d2 d3 d4 : Z) (made : Completion unit) (e : JsError).


Hypothesis Hform : ho _ (ReadForm request) = Settles d1 (Normal form).
Hypothesis Hfile : form_wasmFile form = Some file.
Hypothesis Hargs : parse_args (text_or "[]" (form_args form)) = Normal args.
Hypothesis Hcfg : parse_config (text_or "{}" (form_config form)) = Normal cfg.
Hypothesis Hmkdir : ho _ (Mkdir uploadsDir) = Settles d2 made.
Hypothesis Hbytes : ho _ (ArrayBuffer file) = Settles d3 (Normal b).
Hypothesis Hwrite : ho _ (WriteFile (uploadPath (clock w + d1 + d2) file) b) = Settles d4 (Throw e).

(** X16: when the uploaded file cannot be written the handler answers 500
    with the message of the error, leaves cache and registry as they were
    and does not try to unlink the file. *)
Theorem POST_write_failure :
  exists w',
    hrun ho (POST request w)
    = Done {| status := 500;
              body := ErrorBody (text_or "Failed to execute WebAssembly module"
                                   (Some (message e))) |} w'
    /\ moduleCache w' = moduleCache w /\ activeInstances w' = activeInstances w
    /\ fs_ops ho (POST request w) = [OpMkdir uploadsDir; OpWriteFile (uploadPath (clock w + d1 + d2) file) b].
Proof.
  unfold POST. htask_simpl. rewrite Hform. htask_simpl.
  rewrite Hargs. htask_simpl. rewrite Hcfg. htask_simpl. rewrite Hfile. htask_simpl.
  fold uploadsDir. rewrite Hmkdir.
  assert (forall wx, match made with
                     | Normal a => @HFinished _ _ unit (Normal a) wx
                     | Throw _ => HFinished (Normal tt) wx
                     end = HFinished (Normal tt) wx) as Hmade.
  { intros wx. by destruct made as [[]|me]. }
  cbv beta. rewrite !Hmade. htask_simpl.
  change (clock (advance d2 (advance d1 w))) with (clock w + d1 + d2).
  fold (uploadPath (clock w + d1 + d2) file).
  rewrite Hbytes. htask_simpl. rewrite Hwrite. htask_simpl.
  eexists. split; [reflexivity|]. done.
Qed.

End UploadFails.

(** ** The extra properties on the test doubles *)

Lemma loadModule_validates_before_compiling_witness :
  loadModule (FromBuffer [x00; x61; x73]%byte) Demo.no_limits Demo.fresh
  = Finished
      (Throw (load_error
                (mkError ERangeError "Attempt to access memory outside buffer bounds")))
      Demo.fresh.
Proof.
  apply (proj1 (loadModule_validates_before_compiling Demo.oracle [x00; x61; x73]%byte
                  Demo.no_limits Demo.fresh
                  (mkError ERangeError "Attempt to access memory outside buffer bounds")
                  ltac:(reflexivity))).
  vm_compute. reflexivity.
Defined.

Lemma loadModule_stores_one_record_witness :
  compiles Demo.oracle (loadModule (FromBuffer Demo.empty_module) Demo.no_limits Demo.fresh)
  = 1%nat.
Proof.
  apply (proj1 (loadModule_stores_one_record Demo.oracle Demo.empty_module Demo.no_limits
                  Demo.fresh 7 ltac:(vm_compute; reflexivity) ltac:(reflexivity))).
Defined.

Lemma loadModule_from_path_witness :
  run Demo.oracle (loadModule (FromPath "/uploads/no.wasm") Demo.no_limits Demo.fresh)
  = Thrown (load_error (mkError EError "ENOENT: no such file or directory"))
      (advance 1 Demo.fresh)
  /\ compiles Demo.oracle (loadModule (FromPath "/uploads/no.wasm") Demo.no_limits Demo.fresh)
     = 0%nat.
Proof.
  apply (proj1 (loadModule_from_path Demo.oracle "/uploads/no.wasm" Demo.no_limits
                  Demo.fresh 1 ltac:(vm_compute; reflexivity))).
  reflexivity.
Defined.

Lemma load_then_execute_witness :
  exists id w1 r w2,
    run Demo.oracle (loadModule (FromBuffer Demo.empty_module) Demo.no_limits Demo.fresh)
    = Done id w1
    /\ run Demo.oracle (executeFunction id "identity" [JNum 42] Demo.defaults w1) = Done r w2
    /\ result r = JNum 42 /\ success r = true /\ error r = None
    /\ executionTime r = 2 + 3
    /\ moduleCache w2 = moduleCache w1
    /\ activeInstances w2
       = delete (instanceIdAt id "identity" (clock Demo.fresh + 7 + 2))
           (activeInstances Demo.fresh).
Proof.
  apply (load_then_execute Demo.oracle Demo.empty_module Demo.no_limits Demo.defaults
           "identity" [JNum 42] Demo.fresh Demo.empty_module Demo.exports Demo.Identity
           (JNum 42) 7 2 3);
    first [reflexivity | vm_compute; reflexivity].
Defined.

Lemma clearCache_forgets_modules_witness :
  compiles Demo.oracle
    (loadModule (FromBuffer Demo.empty_module) Demo.no_limits (clearCache Demo.loaded))
  = 1%nat.
Proof.
  apply (proj2 (proj2 (proj2 (clearCache_forgets_modules Demo.loaded)))).
  reflexivity.
Defined.

Lemma enableWasi_never_succeeds_witness :
  run Demo.oracle
    (executeFunction Demo.empty_module_id "identity" [JNum 42] Sample.with_wasi Demo.loaded)
  = Done (failure "wasi.start is not a function") (advance 2 Demo.loaded).
Proof.
  apply (proj2 (proj2 (enableWasi_never_succeeds Demo.oracle Demo.loaded
                         Demo.empty_module_id "identity" [JNum 42] Sample.with_wasi
                         ltac:(reflexivity)))
           Demo.empty_module_record 2 Demo.exports);
    [vm_compute; reflexivity | reflexivity].
Defined.


Lemma leaked_instance_lifetime_witness :
  exists w',
    run Demo.oracle
      (executeFunction Demo.empty_module_id "missing" [] Demo.defaults Demo.loaded)
    = Done (failure "Function missing not found in module") w'
    /\ (300001 <= 300000 ->
        is_Some (activeInstances (cleanupInstances (advance 300001 w'))
                 !! instanceIdAt Demo.empty_module_id "missing" (clock Demo.loaded + 2)))
    /\ (300000 < 300001 ->
        activeInstances (cleanupInstances (advance 300001 w'))
        !! instanceIdAt Demo.empty_module_id "missing" (clock Demo.loaded + 2) = None).
Proof.
  apply (leaked_instance_lifetime Demo.oracle Demo.loaded Demo.empty_module_id "missing" []
           Demo.defaults Demo.empty_module_record 2 Demo.exports 300001);
    first [reflexivity | vm_compute; reflexivity].
Defined.

Lemma instanceId_per_millisecond_witness :
  guests_in_flight
    (settle 0 Sample.instant
       (settle 1 Sample.instant
          (settle 0 Sample.instant
             (spawn (executeFunction Demo.empty_module_id "identity" [JNum 1] Demo.defaults)
                (spawn (executeFunction Demo.empty_module_id "identity" [JNum 1]
                          Demo.defaults)
                   {| shared := Demo.loaded; flights := [] |})))))
  = 1%nat.
Proof.
  apply (proj2 (instanceId_per_millisecond Sample.instant Demo.loaded Demo.empty_module_id
                  "identity" [JNum 1] Demo.defaults Demo.empty_module_record Demo.exports
                  Demo.Identity 3 (JNum 1)
                  ltac:(vm_compute; reflexivity) ltac:(reflexivity) ltac:(reflexivity)
                  ltac:(reflexivity) ltac:(reflexivity))).
Defined.

Lemma POST_early_exits_witness :
  hrun (Sample.host_oracle (Sample.form None "identity" None) [] (Normal tt))
    (POST tt Demo.fresh)
  = Done {| status := 400; body := ErrorBody "WebAssembly file is required" |}
      (advance 1 Demo.fresh)
  /\ fs_ops (Sample.host_oracle (Sample.form None "identity" None) [] (Normal tt))
       (POST tt Demo.fresh) = [].
Proof.
  apply (proj2 (POST_early_exits
                  (Sample.host_oracle (Sample.form None "identity" None) [] (Normal tt))
                  tt Demo.fresh (Sample.form None "identity" None) 1 ltac:(reflexivity))
           [] Demo.defaults);
    reflexivity.
Defined.

Lemma POST_reports_execution_witness :
  exists w',
    hrun (Sample.host_oracle (Sample.form (Some Sample.upload) "missing" None)
            Demo.empty_module (Normal tt))
      (POST tt Demo.fresh)
    = Done {| status := 200;
              body := ExecutionBody Demo.empty_module_id
                        (failure "Function missing not found in module") (getStats w') |}
        w'.
Proof.
  eexists.
  refine (proj1 (POST_reports_execution
                  (Sample.host_oracle (Sample.form (Some Sample.upload) "missing" None)
                     Demo.empty_module (Normal tt))
                  tt Demo.fresh (Sample.form (Some Sample.upload) "missing" None)
                  Sample.upload [] Demo.defaults Demo.empty_module 1 1 1 2 1
                  (Throw (mkError EError "EEXIST: file already exists")) (Normal tt)
                  ltac:(reflexivity) ltac:(reflexivity) ltac:(reflexivity)
                  ltac:(reflexivity) ltac:(reflexivity) ltac:(reflexivity)
                  ltac:(reflexivity) ltac:(reflexivity)
                  Demo.empty_module_id _ (failure "Function missing not found in module") _
                  ltac:(vm_compute; reflexivity) ltac:(vm_compute; reflexivity))).
Defined.

Lemma POST_load_failure_witness :
  exists reason,
    hrun (Sample.host_oracle (Sample.form (Some Sample.upload) "identity" None)
            [x00]%byte (Normal tt))
      (POST tt Demo.fresh)
    = Done {| status := 500;
              body := ErrorBody ("Failed to load WebAssembly module: " +:+ reason) |}
        (advance 1 (advance 2 (advance 1 (advance 1 (advance 1 Demo.fresh)))))
    /\ fs_ops (Sample.host_oracle (Sample.form (Some Sample.upload) "identity" None)
                 [x00]%byte (Normal tt))
         (POST tt Demo.fresh)
       = [OpMkdir "/app/uploads"; OpWriteFile "/app/uploads/1002-empty.wasm" [x00]%byte;
          OpUnlink "/app/uploads/1002-empty.wasm"].
Proof.
  apply (POST_load_failure
           (Sample.host_oracle (Sample.form (Some Sample.upload) "identity" None)
              [x00]%byte (Normal tt))
           tt Demo.fresh (Sample.form (Some Sample.upload) "identity" None)
           Sample.upload [] Demo.defaults [x00]%byte 1 1 1 2 1
           (Throw (mkError EError "EEXIST: file already exists")) (Normal tt)
           ltac:(reflexivity) ltac:(reflexivity) ltac:(reflexivity)
           ltac:(reflexivity) ltac:(reflexivity) ltac:(reflexivity)
           ltac:(reflexivity) ltac:(reflexivity)
           (load_error (mkError ERangeError "Attempt to access memory outside buffer bounds"))
           _ ltac:(vm_compute; reflexivity)).
Defined.

Lemma POST_write_failure_witness :
  exists w',
    hrun (Sample.host_oracle (Sample.form (Some Sample.upload) "identity" None)
            Demo.empty_module (Throw (mkError EError "ENOSPC: no space left on device")))
      (POST tt Demo.fresh)
    = Done {| status := 500; body := ErrorBody "ENOSPC: no space left on device" |} w'
    /\ moduleCache w' = moduleCache Demo.fresh
    /\ activeInstances w' = activeInstances Demo.fresh
    /\ fs_ops (Sample.host_oracle (Sample.form (Some Sample.upload) "identity" None)
                 Demo.empty_module
                 (Throw (mkError EError "ENOSPC: no space left on device")))
         (POST tt Demo.fresh)
       = [OpMkdir "/app/uploads";
          OpWriteFile "/app/uploads/1002-empty.wasm" Demo.empty_module].
Proof.
  apply (POST_write_failure
           (Sample.host_oracle (Sample.form (Some Sample.upload) "identity" None)
              Demo.empty_module (Throw (mkError EError "ENOSPC: no space left on device")))
           tt Demo.fresh (Sample.form (Some Sample.upload) "identity" None)
           Sample.upload [] Demo.defaults Demo.empty_module 1 1 1 2
           (Throw (mkError EError "EEXIST: file already exists"))
           (mkError EError "ENOSPC: no space left on device")
           ltac:(reflexivity) ltac:(reflexivity) ltac:(reflexivity)
           ltac:(reflexivity) ltac:(reflexivity) ltac:(reflexivity) ltac:(reflexivity)).
Defined.

